(** * Wine quality dashboard: prediction client and response normalisation

    A shallow embedding of [apps/wine.py]: the prediction client
    [get_prediction], the gauge builder [draw_gauge] and the script body of
    the "Prediction" tab (the truthiness gate and the [try] block that
    normalises the response).

    Python values are an inductive type, dictionaries are finite maps,
    floats are IEEE 754 binary64 values in the [spec_float] representation
    of the Standard Library, and the script runs in a small trace-and-exception
    monad: every call into the UI framework and every HTTP request is
    recorded, in order, in the trace. *)

From Stdlib Require Import ZArith String Ascii SpecFloat DecimalString Lia.
From stdpp Require Import base gmap strings list.

Set Warnings "-register-all".
Local Open Scope Z_scope.

(** ** Python values *)

(** The values [json.loads] can produce, which are also the values the
    payload is built from. *)
Inductive pyval :=
| PyNone
| PyBool (b : bool)
| PyInt (z : Z)
| PyFloat (f : spec_float)
| PyStr (s : string)
| PyList (l : list pyval)
| PyDict (m : gmap string pyval).

(** [isinstance(v, list)] *)
Definition is_list (v : pyval) : bool :=
  match v with PyList _ => true | _ => false end.

(** [v is None] *)
Definition is_None (v : pyval) : bool :=
  match v with PyNone => true | _ => false end.

(** [type(v).__name__] *)
Definition type_name (v : pyval) : string :=
  match v with
  | PyNone => "NoneType"
  | PyBool _ => "bool"
  | PyInt _ => "int"
  | PyFloat _ => "float"
  | PyStr _ => "str"
  | PyList _ => "list"
  | PyDict _ => "dict"
  end.

(** [bool(v)], the test of [if v:].  A float is false when it is a zero of
    either sign; NaN is true. *)
Definition truthy (v : pyval) : bool :=
  match v with
  | PyNone => false
  | PyBool b => b
  | PyInt z => negb (z =? 0)
  | PyFloat (S754_zero _) => false
  | PyFloat _ => true
  | PyStr s => negb (String.eqb s "")
  | PyList l => match l with [] => false | _ => true end
  | PyDict m => negb (Nat.eqb (size m) 0)
  end.

(** The numbers the five arguments of [get_prediction] can be:
    [st.number_input] returns an [int] or a [float], and a caller may pass a
    [bool] for [is_red]. *)
Inductive pynum :=
| NumBool (b : bool)
| NumInt (z : Z)
| NumFloat (f : spec_float).

(** ** Exceptions *)

Inductive exc_type :=
| IndexError
| KeyError
| AttributeError
| TypeError
| ValueError
| OverflowError
| JSONDecodeError           (* json.JSONDecodeError *)
| RequestException          (* requests.exceptions.RequestException *)
| RequestsJSONDecodeError.  (* requests.exceptions.JSONDecodeError: both of the above *)

(** The text of an exception: a fixed message, a message that ends in the
    [repr] of a string operand, or a message that names a value by its [str]
    and its type. *)
Inductive exc_text :=
| Msg (s : string)
| MsgRepr (s : string) (operand : string)
| MsgValue (v : pyval).

Record exn := Exn { exn_type : exc_type; exn_text : exc_text }.

(** [isinstance(e, json.JSONDecodeError)] *)
Definition is_JSONDecodeError (e : exn) : bool :=
  match exn_type e with
  | JSONDecodeError | RequestsJSONDecodeError => true
  | _ => false
  end.

(** [isinstance(e, requests.exceptions.RequestException)] *)
Definition is_RequestException (e : exn) : bool :=
  match exn_type e with
  | RequestException | RequestsJSONDecodeError => true
  | _ => false
  end.

(** ** Floats *)

Definition prec : Z := 53.
Definition emax : Z := 1024.

Definition is_finite (f : spec_float) : bool :=
  match f with
  | S754_zero _ | S754_finite _ _ _ => true
  | _ => false
  end.

(** [float(z)] for an [int]: the nearest binary64 value, ties to even;
    [OverflowError] when that is out of range. *)
Definition float_of_int (z : Z) : exn + spec_float :=
  match binary_normalize prec emax z 0 false with
  | S754_infinity _ => inl (Exn OverflowError (Msg "int too large to convert to float"))
  | f => inr f
  end.

(** [int(f)] for a [float]: truncation towards zero. *)
Definition int_of_float (f : spec_float) : exn + Z :=
  match f with
  | S754_zero _ => inr 0
  | S754_finite s m e => inr (cond_Zopp s (Z.shiftl (Z.pos m) e))
  | S754_infinity _ => inl (Exn OverflowError (Msg "cannot convert float infinity to integer"))
  | S754_nan => inl (Exn ValueError (Msg "cannot convert float NaN to integer"))
  end.

(** The integer nearest to [n / d], ties to even ([0 < d]). *)
Definition div_half_even (n d : Z) : Z :=
  let q := n / d in
  match (2 * (n mod d) ?= d) with
  | Lt => q
  | Gt => q + 1
  | Eq => if Z.even q then q else q + 1
  end.

(** The integer nearest to [m * 2^e * 100], ties to even: the digits of the
    correctly rounded two-decimal rendering of [m * 2^e]. *)
Definition hundredths (m : positive) (e : Z) : Z :=
  if 0 <=? e then Z.pos m * 2 ^ e * 100
  else div_half_even (Z.pos m * 100) (2 ^ (- e)).

Definition digit (d : Z) : ascii := ascii_of_N (48 + Z.to_N d).

Definition decimal (n : Z) : string :=
  NilZero.string_of_uint (N.to_uint (Z.to_N n)).

(** Sign, integer part, point, two fractional digits. *)
Definition fixed2 (neg : bool) (h : Z) : string :=
  ((if neg then "-" else "") ++
   decimal (h / 100) ++ "." ++
   String (digit (h mod 100 / 10)) (String (digit (h mod 10)) EmptyString))%string.

(** [f"{x:.2f}"] for a [float]. *)
Definition format_2f (x : spec_float) : string :=
  match x with
  | S754_nan => "nan"
  | S754_infinity s => if s then "-inf" else "inf"
  | S754_zero s => fixed2 s 0
  | S754_finite s m e => fixed2 s (hundredths m e)
  end.

Definition Z_of_bool (b : bool) : Z := if b then 1 else 0.

(** [f"{x:.2f}"] for an argument of [get_prediction]: an [int] (or [bool])
    is converted to [float] first. *)
Definition format_num_2f (x : pynum) : exn + string :=
  match x with
  | NumFloat f => inr (format_2f f)
  | NumInt z => match float_of_int z with inl e => inl e | inr f => inr (format_2f f) end
  | NumBool b => inr (format_2f (if b then binary_normalize prec emax 1 0 false else S754_zero false))
  end.

(** [int(x)] for an argument of [get_prediction]. *)
Definition int_of_num (x : pynum) : exn + Z :=
  match x with
  | NumBool b => inr (Z_of_bool b)
  | NumInt z => inr z
  | NumFloat f => int_of_float f
  end.

(** ** Effects: the trace-and-exception monad *)

(** The pieces of an f-string whose rendering is left to Python:
    [{e}] for an exception and [{v}] for a value. *)
Inductive piece :=
| Lit (s : string)
| StrExn (e : exn)
| StrVal (v : pyval).

Definition fstring := list piece.

Inductive metric_arg :=
| ArgVal (v : pyval)
| ArgText (t : fstring).

(** The dictionary [draw_gauge] passes to [go.Indicator]. *)
Record figure := Figure {
  mode : string;
  value : spec_float;
  domain : (Z * Z) * (Z * Z);
  title : string;
  axis_range : Z * Z;
  bar_color : string;
  steps : list ((Z * Z) * string);
  threshold_line : string * Z;
  threshold_thickness : spec_float;
  threshold_value : spec_float
}.

Record request := Request {
  req_url : string;
  req_auth : option string * option string;
  req_json : pyval;
  req_headers : list (string * string)
}.

(** What the script reads of a response: [response.text], and the outcome of
    [response.json()]. *)
Record response := Response {
  text : string;
  json : exn + pyval
}.

(** One entry of the trace per call that leaves the script. *)
Inductive effect :=
| requests_post (req : request)
| st_spinner (label : string)
| st_error (msg : fstring)
| st_write (msg : fstring)
| st_columns (n : Z)
| st_metric (label : string) (arg : metric_arg)
| st_plotly_chart (fig : figure) (use_container_width : bool)
| st_expander (label : string)
| st_json (v : pyval).

(** A run: the trace so far, and an exception or a result. *)
Definition io (A : Type) : Type := list effect * (exn + A).

#[global] Instance io_ret : MRet io := λ A x, ([], inr x).

#[global] Instance io_bind : MBind io := λ A B f m,
  match m with
  | (t, inl e) => (t, inl e)
  | (t, inr a) => let '(t', r) := f a in (t ++ t', r)
  end.

#[global] Instance io_throw : MThrow exn io := λ A e, ([], inl e).

Definition emit (ev : effect) : io () := ([ev], inr ()).

Definition lift {A} (r : exn + A) : io A := ([], r).

(** [try: body except <catches> as e: handler e] *)
Definition try_except {A} (body : io A) (catches : exn → bool) (handler : exn → io A) : io A :=
  match body with
  | (t, inl e) =>
      if catches e then let '(t', r) := handler e in (t ++ t', r) else (t, inl e)
  | (t, inr a) => (t, inr a)
  end.

Definition trace {A} (m : io A) : list effect := m.1.
Definition outcome {A} (m : io A) : exn + A := m.2.

(** ** Operations on values *)

(** [v.get(key, default)] *)
Definition py_get (v : pyval) (key : string) (dflt : pyval) : io pyval :=
  match v with
  | PyDict m => mret (default dflt (m !! key))
  | _ => mthrow (Exn AttributeError
                   (Msg ("'" ++ type_name v ++ "' object has no attribute 'get'")%string))
  end.

(** [v[i]] for a non-negative index. *)
Definition py_index (v : pyval) (i : nat) : io pyval :=
  match v with
  | PyList l =>
      match l !! i with
      | Some x => mret x
      | None => mthrow (Exn IndexError (Msg "list index out of range"))
      end
  | PyStr s =>
      match String.get i s with
      | Some c => mret (PyStr (String c EmptyString))
      | None => mthrow (Exn IndexError (Msg "string index out of range"))
      end
  | PyDict _ => mthrow (Exn KeyError (Msg (decimal (Z.of_nat i))))
  | _ => mthrow (Exn TypeError
                   (Msg ("'" ++ type_name v ++ "' object is not subscriptable")%string))
  end.

(** ** The prediction client *)

(** [not s] for the result of [os.getenv]: unset, or set to the empty string. *)
Definition not_set (s : option string) : bool :=
  match s with
  | None => true
  | Some u => String.eqb u ""
  end.

(** [requests.post(...)]: the call is recorded, and the transport answers
    with a response or raises. *)
Definition post (transport : request → exn + response) (req : request) : io response :=
  ([requests_post req], transport req).

(** The dictionary of lines 20 to 28. *)
Definition payload (density volatile_acidity chlorides : string) (is_red : Z)
    (alcohol : string) : pyval :=
  PyDict {[ "data" := PyDict (
    <["density" := PyStr density]> (
    <["volatile_acidity" := PyStr volatile_acidity]> (
    <["chlorides" := PyStr chlorides]> (
    <["is_red" := PyInt is_red]> (
    <["alcohol" := PyStr alcohol]> ∅))))) ]}.

Definition get_prediction (environ : gmap string string)
    (transport : request → exn + response)
    (density volatile_acidity chlorides is_red alcohol : pynum) : io pyval :=
  let api_url := environ !! "API_URL" in
  let username := environ !! "API_USERNAME" in
  let password := environ !! "API_PASSWORD" in
  if not_set api_url then
    emit (st_error [Lit "API_URL environment variable is not set."]);;
    mret PyNone
  else
    density ← lift (format_num_2f density);
    volatile_acidity ← lift (format_num_2f volatile_acidity);
    chlorides ← lift (format_num_2f chlorides);
    is_red ← lift (int_of_num is_red);
    alcohol ← lift (format_num_2f alcohol);
    let payload := payload density volatile_acidity chlorides is_red alcohol in
    try_except
      (response ← post transport
         (Request (default "" api_url) (username, password) payload
                  [("Content-Type", "application/json")]);
       try_except
         (result ← lift (json response);
          mret result)
         is_JSONDecodeError
         (λ _,
            emit (st_error [Lit "API did not return valid JSON."]);;
            emit (st_write [Lit (text response)]);;
            mret PyNone))
      is_RequestException
      (λ e,
         emit (st_error [Lit "HTTP Request failed: "; StrExn e]);;
         mret PyNone).

(** ** The gauge *)

(** 0.75 *)
Definition three_quarters : spec_float := S754_finite false 6755399441055744 (-53).

Definition draw_gauge (value : spec_float) : figure :=
  {| mode := "gauge+number";
     value := value;
     domain := ((0, 1), (0, 1));
     title := "Quality Points";
     axis_range := (3, 10);
     bar_color := "darkblue";
     steps := [((3, 7), "red"); ((7, 9), "gold"); ((9, 10), "forestgreen")];
     threshold_line := ("black", 4);
     threshold_thickness := three_quarters;
     threshold_value := value |}.

(** ** The "Prediction" tab *)

(** The values [st.metric] takes: [None], an [int] (a [bool] is one), a
    [float] or a [str].  A list or a dictionary is refused. *)
Definition metric_accepts (v : pyval) : bool :=
  match v with
  | PyList _ | PyDict _ => false
  | _ => true
  end.

(** The [TypeError] of [st.metric] for a value it refuses. *)
Definition metric_error (v : pyval) : exn := Exn TypeError (MsgValue v).

(** [col.metric(label, arg)]: the value is checked before the widget is
    shown; an f-string is a [str] and passes. *)
Definition metric (label : string) (arg : metric_arg) : io () :=
  match arg with
  | ArgVal v =>
      if metric_accepts v then emit (st_metric label arg)
      else mthrow (metric_error v)
  | ArgText _ => emit (st_metric label arg)
  end.

(** The metrics, the estimate and the gauge (lines 126 to 134).  The widget
    calls are recorded with their arguments; what the framework renders from
    them is outside the script. *)
Definition display_prediction (pred_value : spec_float)
    (model_version response_time : pyval) : io () :=
  emit (st_columns 2);;
  metric "Model Version" (ArgVal model_version);;
  metric "Response Time" (ArgText [StrVal response_time; Lit " ms"]);;
  emit (st_write [Lit "### Quality Estimate: "; Lit (format_2f pred_value)]);;
  emit (st_plotly_chart (draw_gauge pred_value) true).

Section Tab.

(** [float(s)] for a string [s]: Python's numeral parser, [None] when it
    raises [ValueError]. *)
Variable float_of_str : string → option spec_float.

(** [float(v)] *)
Definition py_float (v : pyval) : exn + spec_float :=
  match v with
  | PyFloat f => inr f
  | PyInt z => float_of_int z
  | PyBool b => inr (if b then binary_normalize prec emax 1 0 false else S754_zero false)
  | PyStr s =>
      match float_of_str s with
      | Some f => inr f
      | None => inl (Exn ValueError (MsgRepr "could not convert string to float: " s))
      end
  | _ => inl (Exn TypeError
                (Msg ("float() argument must be a string or a real number, not '"
                      ++ type_name v ++ "'")%string))
  end.

(** The three shapes of [raw_prediction], in the order the script tests
    them (lines 107 to 114). *)
Definition extract_pred_value (raw_prediction : pyval) : io pyval :=
  (if is_list raw_prediction
   then first ← py_index raw_prediction 0; mret (is_list first)
   else mret false) ≫= λ nested : bool,
  if nested then
    first ← py_index raw_prediction 0;
    py_index first 0
  else if is_list raw_prediction then
    py_index raw_prediction 0
  else
    mret raw_prediction.

(** Lines 103 to 114 on their own: the value the script extracts from the
    response. *)
Definition extracted (result : pyval) : io pyval :=
  raw_prediction ← py_get result "result" PyNone;
  extract_pred_value raw_prediction.

(** Lines 117 to 134 on their own: the test for [None], the conversion, the
    metadata and the display. *)
Definition after_extraction (result pred_value : pyval) : io () :=
  if is_None pred_value then
    emit (st_error [Lit "Could not extract a prediction value."])
  else
    pred_value ← lift (py_float pred_value);
    release ← py_get result "release" (PyDict ∅);
    model_version ← py_get release "model_version_number" (PyStr "Unknown");
    response_time ← py_get result "model_time_in_ms" (PyInt 0);
    display_prediction pred_value model_version response_time.

(** The [try] block of the tab (lines 101 to 139): extraction, conversion,
    metadata and display, under the handler that catches every exception. *)
Definition normalize_response (result : pyval) : io () :=
  try_except
    (raw_prediction ← py_get result "result" PyNone;
     pred_value ← extract_pred_value raw_prediction;
     if is_None pred_value then
       emit (st_error [Lit "Could not extract a prediction value."])
     else
       pred_value ← lift (py_float pred_value);
       release ← py_get result "release" (PyDict ∅);
       model_version ← py_get release "model_version_number" (PyStr "Unknown");
       response_time ← py_get result "model_time_in_ms" (PyInt 0);
       display_prediction pred_value model_version response_time)
    (λ _ : exn, true)
    (λ e,
       emit (st_error [Lit "Error parsing API response: "; StrExn e]);;
       emit (st_expander "Debug: View Raw Response");;
       emit (st_json result)).

(** The body of [with tab1:]. *)
Definition tab1 (environ : gmap string string) (transport : request → exn + response)
    (predict_btn : bool) (feat1 feat2 feat3 feat4 feat5 : pynum) : io () :=
  if predict_btn then
    emit (st_spinner "Calling API...");;
    result ← get_prediction environ transport feat1 feat2 feat3 feat4 feat5;
    if truthy result then normalize_response result else mret ()
  else mret ().

End Tab.

(** ** Observations on runs *)

(** The requests handed to the transport, in order. *)
Definition posts (t : list effect) : list request :=
  omap (λ ev, match ev with requests_post req => Some req | _ => None end) t.

(** [payload["data"][k]] of a request. *)
Definition payload_field (req : request) (k : string) : option pyval :=
  match req_json req with
  | PyDict m =>
      match m !! "data" with
      | Some (PyDict d) => d !! k
      | _ => None
      end
  | _ => None
  end.

(** The request [get_prediction] sends once the five arguments are
    rendered. *)
Definition sent_request (environ : gmap string string)
    (density volatile_acidity chlorides : string) (is_red : Z)
    (alcohol : string) : request :=
  Request (default "" (environ !! "API_URL"))
          (environ !! "API_USERNAME", environ !! "API_PASSWORD")
          (payload density volatile_acidity chlorides is_red alcohol)
          [("Content-Type", "application/json")].

(** [IndexError: list index out of range] *)
Definition index_error : exn := Exn IndexError (Msg "list index out of range").

(** The trace without the dump of the raw response. *)
Definition without_raw (t : list effect) : list effect :=
  List.filter (λ ev, match ev with st_json _ => false | _ => true end) t.

(** The trace of the branch that finds no value (line 118). *)
Definition missing_value : list effect :=
  [st_error [Lit "Could not extract a prediction value."]].

(** The trace of a complete display (lines 127 to 134). *)
Definition displayed (pred_value : spec_float)
    (model_version response_time : pyval) : list effect :=
  [st_columns 2;
   st_metric "Model Version" (ArgVal model_version);
   st_metric "Response Time" (ArgText [StrVal response_time; Lit " ms"]);
   st_write [Lit "### Quality Estimate: "; Lit (format_2f pred_value)];
   st_plotly_chart (draw_gauge pred_value) true].

(** The trace of the handler of lines 136 to 139. *)
Definition parse_failure (e : exn) (result : pyval) : list effect :=
  [st_error [Lit "Error parsing API response: "; StrExn e];
   st_expander "Debug: View Raw Response";
   st_json result].

(** The display under the handler: complete when [st.metric] takes the model
    version, and otherwise cut short after the columns by its [TypeError],
    which the handler reports. *)
Definition display_under_handler (result : pyval) (pred_value : spec_float)
    (model_version response_time : pyval) : io () :=
  if metric_accepts model_version
  then (displayed pred_value model_version response_time, inr ())
  else (st_columns 2 :: parse_failure (metric_error model_version) result, inr ()).

(** ** The pattern of a two-decimal string: [-?[0-9]+\.[0-9][0-9]] *)

Definition is_digit (c : ascii) : bool :=
  let n := N_of_ascii c in ((48 <=? n) && (n <=? 57))%N.

Fixpoint all_digits (s : string) : bool :=
  match s with
  | EmptyString => true
  | String c s' => is_digit c && all_digits s'
  end.

(** Digits up to the point ([seen]: at least one so far), then exactly two
    digits. *)
Fixpoint digits_point_2 (seen : bool) (s : string) : bool :=
  match s with
  | EmptyString => false
  | String c s' =>
      if Ascii.eqb c "."
      then seen && Nat.eqb (String.length s') 2 && all_digits s'
      else is_digit c && digits_point_2 true s'
  end.

Definition two_decimals (s : string) : bool :=
  match s with
  | String "-" s' => digits_point_2 false s'
  | _ => digits_point_2 false s
  end.


(** ** A sample of [float(s)]

    Python's conversion of a string to a [float], for strings whose
    characters are code points below 256: surrounding whitespace, an
    optional sign, then a decimal numeral with optional point, exponent and
    underscores between digits, or [inf], [infinity] or [nan] in any case;
    the value is correctly rounded.  It instantiates [float_of_str] in the
    closed examples. *)

Definition code (c : ascii) : N := N_of_ascii c.

(** Whitespace that [float] strips: tab to carriage return, the space, and
    the two Latin-1 spaces. *)
Definition is_space (c : ascii) : bool :=
  let n := code c in
  (((9 <=? n) && (n <=? 13)) || (n =? 32) || (n =? 133) || (n =? 160))%N.

(** Characters above ASCII that are neither whitespace nor decimal digits
    end the conversion in an error. *)
Definition is_foreign (c : ascii) : bool :=
  ((127 <=? code c) && negb (is_space c))%N.

(** The binary64 value nearest to [n / d] ([0 <= n], [0 < d]): a quotient
    with more than [prec + 2] bits and a sticky bit, then rounded. *)
Definition nearest_float (neg : bool) (n d : Z) : spec_float :=
  if n =? 0 then S754_zero neg
  else
    let s := Z.max 0 (64 + Z.log2 d - Z.log2 n) in
    let q := (n * 2 ^ s) / d in
    let sticky := if (n * 2 ^ s) mod d =? 0 then 0 else 1 in
    binary_normalize prec emax (cond_Zopp neg (2 * q + sticky)) (- (s + 1)) false.

(** Underscores are dropped; each must stand between two digits. *)
Fixpoint remove_underscores (prev : ascii) (cs : list ascii) : option (list ascii) :=
  match cs with
  | [] => if Ascii.eqb prev "_" then None else Some []
  | c :: rest =>
      if Ascii.eqb c "_" then
        if is_digit prev then remove_underscores c rest else None
      else if Ascii.eqb prev "_" && negb (is_digit c) then None
      else cons c <$> remove_underscores c rest
  end.

Definition take_sign (cs : list ascii) : bool * list ascii :=
  match cs with
  | "-"%char :: rest => (true, rest)
  | "+"%char :: rest => (false, rest)
  | _ => (false, cs)
  end.

(** The leading digits: their value after [acc], their number, and what
    follows them. *)
Fixpoint take_digits (acc : Z) (cs : list ascii) : Z * nat * list ascii :=
  match cs with
  | c :: rest =>
      if is_digit c
      then let '(v, n, r) := take_digits (10 * acc + (Z.of_N (code c) - 48)) rest in
           (v, S n, r)
      else (acc, O, cs)
  | [] => (acc, O, [])
  end.

(** The exponent part, which must reach the end of the string. *)
Definition take_exponent (cs : list ascii) : option Z :=
  match cs with
  | [] => Some 0
  | c :: rest =>
      if Ascii.eqb c "e" || Ascii.eqb c "E" then
        let '(eneg, r1) := take_sign rest in
        let '(e, n, r2) := take_digits 0 r1 in
        match n, r2 with
        | S _, [] => Some (cond_Zopp eneg e)
        | _, _ => None
        end
      else None
  end.

Definition lower (c : ascii) : ascii :=
  let n := code c in
  if ((65 <=? n) && (n <=? 90))%N then ascii_of_N (n + 32) else c.

(** [inf], [infinity] and [nan], in any case. *)
Definition inf_or_nan (neg : bool) (cs : list ascii) : option spec_float :=
  let word := string_of_list_ascii (lower <$> cs) in
  if String.eqb word "inf" || String.eqb word "infinity" then Some (S754_infinity neg)
  else if String.eqb word "nan" then Some S754_nan
  else None.

Fixpoint drop_spaces (cs : list ascii) : list ascii :=
  match cs with
  | c :: rest => if is_space c then drop_spaces rest else cs
  | [] => []
  end.

(** Whitespace is stripped at both ends. *)
Definition strip (cs : list ascii) : list ascii :=
  reverse (drop_spaces (reverse (drop_spaces cs))).

Definition float_of_decimal (s : string) : option spec_float :=
  let cs := list_ascii_of_string s in
  if existsb is_foreign cs then None
  else
    match remove_underscores "000"%char (strip cs) with
    | None => None
    | Some cs =>
        let '(neg, body) := take_sign cs in
        let '(i, ni, r1) := take_digits 0 body in
        let '(f, nf, r2) :=
          match r1 with
          | "."%char :: rest => take_digits 0 rest
          | _ => (0, O, r1)
          end in
        match (ni + nf)%nat with
        | O => inf_or_nan neg body
        | S _ =>
            match take_exponent r2 with
            | None => None
            | Some e =>
                let digits := i * 10 ^ Z.of_nat nf + f in
                let e10 := e - Z.of_nat nf in
                Some (if 0 <=? e10 then nearest_float neg (digits * 10 ^ e10) 1
                      else nearest_float neg digits (10 ^ (- e10)))
            end
        end
    end.

(** Sample values: 5.67 and 0.993 as binary64. *)
Definition f_5_67 : spec_float := S754_finite false 6383852471797678 (-50).
Definition f_0_993 : spec_float := S754_finite false 8944148859957805 (-53).

(** The defaults of the five sidebar inputs (lines 84 to 88): 0.99, 0.25,
    0.05, 1 and 10.0. *)
Definition feat1 : pynum := NumFloat (S754_finite false 8917127262193582 (-53)).
Definition feat2 : pynum := NumFloat (S754_finite false 4503599627370496 (-54)).
Definition feat3 : pynum := NumFloat (S754_finite false 7205759403792794 (-57)).
Definition feat4 : pynum := NumInt 1.
Definition feat5 : pynum := NumFloat (S754_finite false 5629499534213120 (-49)).

(** ** Sample surroundings for the closed examples *)

Definition sample_environ : gmap string string :=
  <["API_URL" := "https://models.example/predict"]> (
  <["API_USERNAME" := "user"]> (
  <["API_PASSWORD" := "secret"]> ∅)).

(** A transport that answers every request with the JSON value [result]. *)
Definition answers (body : string) (result : pyval) : request → exn + response :=
  λ _, inr (Response body (inr result)).

(** A transport that cannot connect. *)
Definition connection_error : exn :=
  Exn RequestException (Msg "Connection refused").

Definition unreachable : request → exn + response :=
  λ _, inl connection_error.

(** The request the sidebar defaults make in [sample_environ]. *)
Definition sample_request (is_red : Z) : request :=
  sent_request sample_environ "0.99" "0.25" "0.05" is_red "10.00".

(** A response body with metadata and no [result]. *)
Definition sample_metadata : gmap string pyval :=
  <["release" := PyDict {[ "model_version_number" := PyInt 3 ]}]> (
  <["model_time_in_ms" := PyInt 12]> ∅).

(** ** Further observations *)

(** The messages passed to [st.error], in order. *)
Definition errors (t : list effect) : list fstring :=
  omap (λ ev, match ev with st_error msg => Some msg | _ => None end) t.

(** Bands that tile the interval from [lo] to [hi]: the first starts at
    [lo], each starts where the one before ends, the last ends at [hi], and
    none is empty. *)
Fixpoint tiles (lo hi : Z) (bands : list ((Z * Z) * string)) : bool :=
  match bands with
  | [] => lo =? hi
  | ((a, b), _) :: rest => (a =? lo) && (a <? b) && tiles b hi rest
  end.

(** The first of the five conversions that raises, in the order the
    dictionary literal evaluates them. *)
Definition first_raises (d v c r a : pynum) (e : exn) : Prop :=
  format_num_2f d = inl e ∨
  (∃ ds, format_num_2f d = inr ds ∧
     (format_num_2f v = inl e ∨
      ∃ vs, format_num_2f v = inr vs ∧
        (format_num_2f c = inl e ∨
         ∃ cs, format_num_2f c = inr cs ∧
           (int_of_num r = inl e ∨
            ∃ i, int_of_num r = inr i ∧ format_num_2f a = inl e)))).


(** ** The training script
    ([scripts/.ipynb_checkpoints/sklearn_model_train-checkpoint.py])

    The two parts of the script that are plain Python over strings: the
    loop that renames the columns (lines 28 and 29) and the name of the
    MLflow experiment (line 50). *)

(** [s.replace(' ', '_')] *)
Fixpoint replace_spaces (s : string) : string :=
  match s with
  | EmptyString => EmptyString
  | String c s' => String (if Ascii.eqb c " " then "_"%char else c) (replace_spaces s')
  end.

(** [df.rename({old: new}, axis=1, inplace=True)] on the column labels:
    every column labelled [old] is relabelled [new], the others are kept. *)
Definition rename (old new : string) (columns : list string) : list string :=
  (λ label, if String.eqb label old then new else label) <$> columns.

(** The loop of lines 28 and 29.  [for col in df.columns] walks the labels
    as they were when the loop started, while each step relabels the
    frame. *)
Definition rename_columns (columns : list string) : list string :=
  foldl (λ current col, rename col (replace_spaces col) current) columns columns.

(** A double quote, for the text of Python's messages. *)
Definition dquote : string := String (ascii_of_nat 34) EmptyString.

(** [a + b] where [a] and [b] are results of [os.environ.get] or strings
    ([None] for an unset variable). *)
Definition py_add (a b : option string) : exn + string :=
  match a, b with
  | Some x, Some y => inr (x +:+ y)
  | Some _, None =>
      inl (Exn TypeError
             (Msg ("can only concatenate str (not " +:+ dquote +:+ "NoneType" +:+ dquote
                   +:+ ") to str")))
  | None, Some _ =>
      inl (Exn TypeError (Msg "unsupported operand type(s) for +: 'NoneType' and 'str'"))
  | None, None =>
      inl (Exn TypeError
             (Msg "unsupported operand type(s) for +: 'NoneType' and 'NoneType'"))
  end.

(** The argument of [mlflow.set_experiment] (line 50), summed from the
    left. *)
Definition experiment_name (environ : gmap string string) : exn + string :=
  match py_add (environ !! "DOMINO_PROJECT_NAME") (Some " ") with
  | inl e => inl e
  | inr s1 =>
      match py_add (Some s1) (environ !! "DOMINO_STARTING_USERNAME") with
      | inl e => inl e
      | inr s2 =>
          match py_add (Some s2) (Some " ") with
          | inl e => inl e
          | inr s3 => py_add (Some s3) (environ !! "MLFLOW_NAME")
          end
      end
  end.

(** ** Further sample surroundings *)

(** A transport whose answer is not JSON. *)
Definition not_json : request → exn + response :=
  λ _, inr (Response "<html>Bad Gateway</html>"
              (inl (Exn JSONDecodeError (Msg "Expecting value: line 1 column 1 (char 0)")))).

(** A transport that raises something other than a [RequestException]. *)
Definition type_error : exn := Exn TypeError (Msg "Object of type set is not JSON serializable").

Definition raises_type_error : request → exn + response := λ _, inl type_error.

(** Column labels as in the data file. *)
Definition sample_columns : list string :=
  ["fixed acidity"; "pH"; "free sulfur dioxide"; "type"].

Definition sample_training_environ : gmap string string :=
  <["DOMINO_PROJECT_NAME" := "wine"]> (
  <["DOMINO_STARTING_USERNAME" := "ann"]> (
  <["MLFLOW_NAME" := "gbm"]> ∅)).

(** * Properties *)

(** ** Steps of the monad *)

Lemma bind_lift_inr {A B} (a : A) (k : A → io B) : (lift (inr a) ≫= k) = k a.
Proof. unfold lift, mbind, io_bind. by destruct (k a). Qed.

Lemma bind_ret {A B} (a : A) (k : A → io B) : (mret a ≫= k) = k a.
Proof. unfold mret, io_ret, mbind, io_bind. by destruct (k a). Qed.

Lemma bind_assoc {A B C} (m : io A) (f : A → io B) (g : B → io C) :
  (m ≫= λ x, f x ≫= g) = ((m ≫= f) ≫= g).
Proof.
  destruct m as [t [e|a]]; [reflexivity|]. unfold mbind, io_bind.
  destruct (f a) as [t' [e'|b]]; [reflexivity|].
  destruct (g b) as [t'' r]. by rewrite app_assoc.
Qed.

(** ** Conversion of integers *)








(** ** Two-decimal rendering *)

(** [div_half_even n d] is within half a unit of [n / d]. *)
Lemma div_half_even_nearest n d : 0 < d → 2 * Z.abs (div_half_even n d * d - n) <= d.
Proof.
  intros Hd. unfold div_half_even.
  pose proof (Z.div_mod n d ltac:(lia)) as Hn.
  pose proof (Z.mod_pos_bound n d Hd) as Hr.
  destruct (Z.compare_spec (2 * (n mod d)) d); [destruct (Z.even _)|..]; nia.
Qed.

(** The digits of a finite float are within half a hundredth of its value:
    [|h - 100 * m * 2^e| <= 1/2], scaled by [2^(-e)] when [e] is negative. *)
Lemma hundredths_nearest m e :
  if 0 <=? e then hundredths m e = Z.pos m * 2 ^ e * 100
  else 2 * Z.abs (hundredths m e * 2 ^ (- e) - Z.pos m * 100) <= 2 ^ (- e).
Proof.
  unfold hundredths. destruct (0 <=? e) eqn:He; [done|].
  apply Z.leb_gt in He. apply div_half_even_nearest, Z.pow_pos_nonneg; lia.
Qed.











(** Outside the valid numbers the pattern is lost: NaN renders as [nan]. *)
Lemma format_2f_nan : format_2f S754_nan = "nan" ∧ two_decimals (format_2f S754_nan) = false.
Proof. split; reflexivity. Qed.

(** ** The prediction client *)

Lemma get_prediction_unset environ transport d v c r a :
  not_set (environ !! "API_URL") = true →
  get_prediction environ transport d v c r a =
    ([st_error [Lit "API_URL environment variable is not set."]], inr PyNone).
Proof. intros H. unfold get_prediction. by rewrite H. Qed.

(** With the endpoint configured and the arguments rendered, the run is one
    request followed by what the two handlers make of the answer. *)
Lemma get_prediction_configured environ transport d v c r a ds vs cs i az :
  not_set (environ !! "API_URL") = false →
  format_num_2f d = inr ds →
  format_num_2f v = inr vs →
  format_num_2f c = inr cs →
  int_of_num r = inr i →
  format_num_2f a = inr az →
  get_prediction environ transport d v c r a =
    let req := sent_request environ ds vs cs i az in
    let failed e :=
      ([requests_post req; st_error [Lit "HTTP Request failed: "; StrExn e]],
       inr PyNone) in
    match transport req with
    | inl e => if is_RequestException e then failed e else ([requests_post req], inl e)
    | inr resp =>
        match json resp with
        | inr result => ([requests_post req], inr result)
        | inl e =>
            if is_JSONDecodeError e
            then ([requests_post req;
                   st_error [Lit "API did not return valid JSON."];
                   st_write [Lit (text resp)]], inr PyNone)
            else if is_RequestException e then failed e
            else ([requests_post req], inl e)
        end
    end.
Proof.
  intros Hset Hd Hv Hc Hr Ha. unfold get_prediction.
  rewrite Hset, Hd, Hv, Hc, Hr, Ha, !bind_lift_inr.
  fold (sent_request environ ds vs cs i az).
  unfold post. cbn.
  destruct (transport _) as [e|resp]; cbn.
  - by destruct (is_RequestException e).
  - destruct (json resp) as [e|result]; cbn; [|done].
    destruct (is_JSONDecodeError e); cbn; [done|].
    by destruct (is_RequestException e).
Qed.

Ltac run_client Hset Hd Hv Hc Hr Ha :=
  rewrite (get_prediction_configured _ _ _ _ _ _ _ _ _ _ _ _ Hset Hd Hv Hc Hr Ha);
  cbv zeta.

(** Whatever the transport answers, exactly one request is sent. *)
Lemma get_prediction_posts environ transport d v c r a ds vs cs i az :
  not_set (environ !! "API_URL") = false →
  format_num_2f d = inr ds →
  format_num_2f v = inr vs →
  format_num_2f c = inr cs →
  int_of_num r = inr i →
  format_num_2f a = inr az →
  posts (trace (get_prediction environ transport d v c r a)) =
    [sent_request environ ds vs cs i az].
Proof.
  intros Hset Hd Hv Hc Hr Ha.
  run_client Hset Hd Hv Hc Hr Ha. destruct (transport _) as [e|resp].
  - by destruct (is_RequestException e).
  - destruct (json resp) as [e|result]; [|done].
    destruct (is_JSONDecodeError e); [done|].
    by destruct (is_RequestException e).
Qed.

Lemma payload_fields environ ds vs cs i az :
  let req := sent_request environ ds vs cs i az in
  payload_field req "density" = Some (PyStr ds) ∧
  payload_field req "volatile_acidity" = Some (PyStr vs) ∧
  payload_field req "chlorides" = Some (PyStr cs) ∧
  payload_field req "is_red" = Some (PyInt i) ∧
  payload_field req "alcohol" = Some (PyStr az).
Proof. repeat split. Qed.

(** C4. When the endpoint URL is not configured (unset, or set to the empty
    string), [get_prediction] reports the configuration error and returns
    [None] without sending anything: the trace holds no request, and the run
    does not depend on the transport. *)
Theorem unset_endpoint_sends_nothing environ transport d v c r a :
  not_set (environ !! "API_URL") = true →
  get_prediction environ transport d v c r a =
    ([st_error [Lit "API_URL environment variable is not set."]], inr PyNone) ∧
  posts (trace (get_prediction environ transport d v c r a)) = [] ∧
  ∀ transport',
    get_prediction environ transport' d v c r a =
    get_prediction environ transport d v c r a.
Proof.
  intros H. split; [|split].
  - by apply get_prediction_unset.
  - by rewrite get_prediction_unset.
  - intros transport'. by rewrite !get_prediction_unset.
Qed.

(** C2 (as amended). The payload's [is_red] field is the integer
    [int(is_red)], never a boolean or a string; it is 0 or 1 when [is_red]
    is a boolean, and it is the argument itself when [is_red] is an
    integer, so 0 or 1 only for those two integers. *)
Theorem is_red_serialized_as_int environ transport d v c r a ds vs cs i az :
  not_set (environ !! "API_URL") = false →
  format_num_2f d = inr ds →
  format_num_2f v = inr vs →
  format_num_2f c = inr cs →
  int_of_num r = inr i →
  format_num_2f a = inr az →
  posts (trace (get_prediction environ transport d v c r a)) =
    [sent_request environ ds vs cs i az] ∧
  payload_field (sent_request environ ds vs cs i az) "is_red" = Some (PyInt i) ∧
  (∀ b, r = NumBool b → i = 0 ∨ i = 1) ∧
  (∀ z, r = NumInt z → i = z).
Proof.
  intros Hset Hd Hv Hc Hr Ha. repeat split.
  - by apply get_prediction_posts.
  - intros b ->. injection Hr as <-. destruct b; auto.
  - intros z ->. by injection Hr as <-.
Qed.


Section TabFacts.

Variable float_of_str : string → option spec_float.

(** C8. When the transport raises a [RequestException] (a connection
    failure among them), [get_prediction] catches it, reports
    "HTTP Request failed" and returns [None]; the tab then shows nothing
    more and its run ends normally, without an exception, so the script is
    ready for its next run (a run is a function of its inputs alone).  The
    report is neither the configuration report nor the invalid-JSON
    report. *)
Theorem transport_failure_is_reported environ transport d v c r a ds vs cs i az e :
  not_set (environ !! "API_URL") = false →
  format_num_2f d = inr ds →
  format_num_2f v = inr vs →
  format_num_2f c = inr cs →
  int_of_num r = inr i →
  format_num_2f a = inr az →
  transport (sent_request environ ds vs cs i az) = inl e →
  is_RequestException e = true →
  get_prediction environ transport d v c r a =
    ([requests_post (sent_request environ ds vs cs i az);
      st_error [Lit "HTTP Request failed: "; StrExn e]], inr PyNone) ∧
  tab1 float_of_str environ transport true d v c r a =
    ([st_spinner "Calling API...";
      requests_post (sent_request environ ds vs cs i az);
      st_error [Lit "HTTP Request failed: "; StrExn e]], inr ()) ∧
  st_error [Lit "HTTP Request failed: "; StrExn e] ≠
    st_error [Lit "API_URL environment variable is not set."] ∧
  st_error [Lit "HTTP Request failed: "; StrExn e] ≠
    st_error [Lit "API did not return valid JSON."].
Proof.
  intros Hset Hd Hv Hc Hr Ha He Hre.
  assert (get_prediction environ transport d v c r a =
    ([requests_post (sent_request environ ds vs cs i az);
      st_error [Lit "HTTP Request failed: "; StrExn e]], inr PyNone)) as Hget.
  { run_client Hset Hd Hv Hc Hr Ha. by rewrite He, Hre. }
  split; [exact Hget|]. split; [|split; discriminate].
  unfold tab1. by rewrite Hget.
Qed.

(** Exactly the values Python treats as false. *)
Lemma truthy_false v :
  truthy v = false ↔
  v = PyNone ∨ v = PyBool false ∨ v = PyInt 0 ∨ (∃ s, v = PyFloat (S754_zero s)) ∨
  v = PyStr "" ∨ v = PyList [] ∨ v = PyDict ∅.
Proof.
  split.
  - destruct v as [|b|z|f|s|l|m]; simpl; intros H.
    + auto.
    + subst. auto.
    + apply negb_false_iff, Z.eqb_eq in H. subst. auto 10.
    + destruct f; try discriminate. eauto 10.
    + apply negb_false_iff, String.eqb_eq in H. subst. auto 10.
    + destruct l; [auto 10|discriminate].
    + apply negb_false_iff, Nat.eqb_eq, map_size_empty_iff in H. subst. auto 10.
  - intros [->|[->|[->|[[s ->]|[->|[->| ->]]]]]]; reflexivity.
Qed.

(** C10. When [get_prediction] returns a parsed JSON value that Python
    treats as false (the empty object, the empty list, [null], 0 and [false]
    among them), the tab's trace is the spinner and the request and nothing
    else: no prediction, no error message, and the [try] block is not
    entered. *)
Theorem falsy_result_shows_nothing environ transport d v c r a ds vs cs i az resp result :
  not_set (environ !! "API_URL") = false →
  format_num_2f d = inr ds →
  format_num_2f v = inr vs →
  format_num_2f c = inr cs →
  int_of_num r = inr i →
  format_num_2f a = inr az →
  transport (sent_request environ ds vs cs i az) = inr resp →
  json resp = inr result →
  truthy result = false →
  tab1 float_of_str environ transport true d v c r a =
    ([st_spinner "Calling API...";
      requests_post (sent_request environ ds vs cs i az)], inr ()) ∧
  truthy (PyDict ∅) = false ∧ truthy (PyList []) = false ∧ truthy PyNone = false ∧
  truthy (PyInt 0) = false ∧ truthy (PyBool false) = false.
Proof.
  intros Hset Hd Hv Hc Hr Ha Ht Hj Hfalse.
  split; [|repeat split].
  unfold tab1. run_client Hset Hd Hv Hc Hr Ha.
  rewrite Ht, Hj. cbn. by rewrite Hfalse.
Qed.

(** ** The normalisation block *)

Lemma extract_nested x l0 l :
  extract_pred_value (PyList (PyList (x :: l0) :: l)) = mret x.
Proof. reflexivity. Qed.

Lemma extract_flat v l :
  is_list v = false → extract_pred_value (PyList (v :: l)) = mret v.
Proof. by destruct v. Qed.

Lemma extract_direct v : is_list v = false → extract_pred_value v = mret v.
Proof. by destruct v. Qed.

Lemma extracted_dict m :
  extracted (PyDict m) = extract_pred_value (default PyNone (m !! "result")).
Proof. unfold extracted, py_get. by rewrite bind_ret. Qed.

(** The raw predictions from which [None] is extracted. *)
Lemma extract_None raw :
  extract_pred_value raw = mret PyNone ↔
  raw = PyNone ∨ (∃ l, raw = PyList (PyNone :: l)) ∨
  (∃ l0 l, raw = PyList (PyList (PyNone :: l0) :: l)).
Proof.
  split.
  - destruct raw as [| | | | |[|x l]|]; try discriminate; [auto|].
    destruct x as [| | | | |[|y l0]|]; try discriminate; [eauto|].
    intros [= ->]. eauto.
  - intros [->|[[l ->]|(l0 & l & ->)]]; reflexivity.
Qed.

(** The responses from which [None] is extracted: no [result] key, a [null]
    result, or [null] at the head of either list shape. *)
Lemma extracted_None m :
  extracted (PyDict m) = mret PyNone ↔
  m !! "result" = None ∨ m !! "result" = Some PyNone ∨
  (∃ l, m !! "result" = Some (PyList (PyNone :: l))) ∨
  (∃ l0 l, m !! "result" = Some (PyList (PyList (PyNone :: l0) :: l))).
Proof.
  rewrite extracted_dict, extract_None.
  destruct (m !! "result") as [raw|]; simpl; [|by intuition].
  split.
  - intros [->|[[l ->]|(l0 & l & ->)]]; eauto 10.
  - intros [|[[= ->]|[[l [= ->]]|(l0 & l & [= ->])]]]; [done|eauto..].
Qed.

(** The [try] block is the extraction, then the rest, under the handler. *)
Lemma normalize_response_extracted result :
  normalize_response float_of_str result =
    try_except (extracted result ≫= after_extraction float_of_str result)
      (λ _, true) (λ e, (parse_failure e result, inr ())).
Proof. unfold normalize_response, extracted. by rewrite <- bind_assoc. Qed.

Lemma normalize_response_raises result e :
  extracted result = mthrow e →
  normalize_response float_of_str result = (parse_failure e result, inr ()).
Proof. intros H. by rewrite normalize_response_extracted, H. Qed.

Lemma normalize_response_not_float result v e :
  extracted result = mret v → is_None v = false →
  py_float float_of_str v = inl e →
  normalize_response float_of_str result = (parse_failure e result, inr ()).
Proof.
  intros H Hv Hf. rewrite normalize_response_extracted, H, bind_ret.
  unfold after_extraction. by rewrite Hv, Hf.
Qed.

(** The display runs to its end, or stops at the first metric. *)
Lemma display_prediction_run f model_version response_time :
  display_prediction f model_version response_time =
    if metric_accepts model_version
    then (displayed f model_version response_time, inr ())
    else ([st_columns 2], inl (metric_error model_version)).
Proof. unfold display_prediction, metric. by destruct (metric_accepts model_version). Qed.

Lemma display_prediction_handled result f model_version response_time :
  try_except (display_prediction f model_version response_time) (λ _, true)
    (λ e, (parse_failure e result, inr ())) =
  display_under_handler result f model_version response_time.
Proof.
  rewrite display_prediction_run. unfold display_under_handler.
  by destruct (metric_accepts model_version).
Qed.

(** After a successful conversion the outcome is decided by [release] and,
    for the display, by the model version. *)
Lemma normalize_response_float m v f :
  extracted (PyDict m) = mret v → is_None v = false →
  py_float float_of_str v = inr f →
  normalize_response float_of_str (PyDict m) =
    match m !! "release" with
    | None =>
        display_under_handler (PyDict m) f (PyStr "Unknown")
          (default (PyInt 0) (m !! "model_time_in_ms"))
    | Some (PyDict rel) =>
        display_under_handler (PyDict m) f
          (default (PyStr "Unknown") (rel !! "model_version_number"))
          (default (PyInt 0) (m !! "model_time_in_ms"))
    | Some release =>
        (parse_failure
           (Exn AttributeError
              (Msg ("'" +:+ type_name release +:+ "' object has no attribute 'get'")))
           (PyDict m), inr ())
    end.
Proof.
  intros H Hv Hf. rewrite normalize_response_extracted, H, bind_ret.
  unfold after_extraction. rewrite Hv, Hf, bind_lift_inr.
  cbn [py_get]. rewrite bind_ret.
  destruct (m !! "release") as [[]|]; cbn [default from_option id py_get];
    rewrite ?bind_ret, ?display_prediction_handled; reflexivity.
Qed.

(** The extraction shows nothing. *)
Lemma extracted_pure result : ∃ r, extracted result = ([], r).
Proof.
  destruct result as [| | | | | |m]; try (eexists; reflexivity).
  rewrite extracted_dict.
  destruct (default PyNone (m !! "result")) as [| | | | |[|x l]|];
    try (eexists; reflexivity).
  destruct x as [| | | | |[|y l0]|]; eexists; reflexivity.
Qed.

(** After the extraction the block reports a missing value, raises before
    showing anything, or reaches the display of the converted value. *)
Lemma after_extraction_cases result v :
  (is_None v = true ∧
   after_extraction float_of_str result v = (missing_value, inr ())) ∨
  (is_None v = false ∧
   ∃ e, after_extraction float_of_str result v = ([], inl e)) ∨
  (is_None v = false ∧
   ∃ f model_version response_time,
     py_float float_of_str v = inr f ∧
     after_extraction float_of_str result v =
       display_prediction f model_version response_time).
Proof.
  unfold after_extraction. destruct (is_None v) eqn:Hv; [by left|]. right.
  destruct (py_float float_of_str v) as [e|f] eqn:Hf; [left; eauto|].
  rewrite bind_lift_inr.
  destruct result as [| | | | | |m]; try (left; split; [done|]; eexists; reflexivity).
  cbn [py_get]. rewrite bind_ret.
  destruct (default (PyDict ∅) (m !! "release")) as [| | | | | |rel];
    try (left; split; [done|]; eexists; reflexivity).
  right. split; [done|]. cbn [py_get]. rewrite !bind_ret. eauto.
Qed.

(** Whatever the response, the block ends normally in one of four ways:
    the report of a missing value, the diagnostic of the handler alone, the
    complete display of the converted value, or the columns followed by the
    diagnostic for a model version that [st.metric] refuses. *)
Lemma normalize_response_ends result :
  (extracted result = mret PyNone ∧
   normalize_response float_of_str result = (missing_value, inr ())) ∨
  (∃ e, normalize_response float_of_str result = (parse_failure e result, inr ())) ∨
  (∃ (v : pyval) (f : spec_float) (model_version response_time : pyval),
     extracted result = mret v ∧ is_None v = false ∧
     py_float float_of_str v = inr f ∧
     metric_accepts model_version = true ∧
     normalize_response float_of_str result =
       (displayed f model_version response_time, inr ())) ∨
  (∃ (v : pyval) (f : spec_float) (model_version response_time : pyval),
     extracted result = mret v ∧ is_None v = false ∧
     py_float float_of_str v = inr f ∧
     metric_accepts model_version = false ∧
     normalize_response float_of_str result =
       (st_columns 2 :: parse_failure (metric_error model_version) result, inr ())).
Proof.
  rewrite normalize_response_extracted.
  destruct (extracted_pure result) as [[e|v] Hx]; rewrite Hx.
  { right. left. by exists e. }
  change ([], inr v) with (mret v : io pyval). rewrite bind_ret.
  destruct (after_extraction_cases result v)
    as [[Hv ->]|[[Hv [e ->]]|[Hv (f & mv & rt & Hf & ->)]]].
  - left. split; [|done]. by destruct v.
  - right. left. by exists e.
  - right. right. rewrite display_prediction_handled. unfold display_under_handler.
    destruct (metric_accepts mv) eqn:Hmv; [left|right]; by exists v, f, mv, rt.
Qed.

(** A gauge is only ever drawn from the float of the extracted value. *)
Lemma gauge_from_extracted result v fig wide :
  extracted result = mret v →
  st_plotly_chart fig wide ∈ trace (normalize_response float_of_str result) →
  ∃ f, py_float float_of_str v = inr f ∧ fig = draw_gauge f.
Proof.
  intros Hx Hin.
  destruct (normalize_response_ends result)
    as [[_ Hn]|[[e Hn]|[(v' & f & mv & rt & Hx' & _ & Hf & _ & Hn)|
                        (v' & f & mv & rt & _ & _ & _ & _ & Hn)]]];
    rewrite Hn in Hin; cbn in Hin.
  - by repeat (apply elem_of_cons in Hin as [?|Hin]; [done|]); apply elem_of_nil in Hin.
  - by repeat (apply elem_of_cons in Hin as [?|Hin]; [done|]); apply elem_of_nil in Hin.
  - rewrite Hx in Hx'. injection Hx' as <-. exists f. split; [done|].
    unfold displayed in Hin.
    repeat (apply elem_of_cons in Hin as [Heq|Hin]; [by simplify_eq|]).
    by apply elem_of_nil in Hin.
  - by repeat (apply elem_of_cons in Hin as [?|Hin]; [done|]); apply elem_of_nil in Hin.
Qed.

(** The part of the block after extraction reads only [release] and
    [model_time_in_ms] of the response. *)
Lemma after_extraction_insert_result m x y v :
  after_extraction float_of_str (PyDict (<["result" := x]> m)) v =
  after_extraction float_of_str (PyDict (<["result" := y]> m)) v.
Proof.
  unfold after_extraction, py_get.
  by rewrite !(lookup_insert_ne _ "result" "release"),
             !(lookup_insert_ne _ "result" "model_time_in_ms").
Qed.

Lemma extracted_insert m x :
  extracted (PyDict (<["result" := x]> m)) = extract_pred_value x.
Proof. by rewrite extracted_dict, lookup_insert_eq. Qed.

(** Two responses with the same extracted value and the same remainder show
    the same things, the dump of the raw response apart. *)
Lemma normalize_response_same_value m x y v :
  extract_pred_value x = mret v →
  extract_pred_value y = mret v →
  let rx := normalize_response float_of_str (PyDict (<["result" := x]> m)) in
  let ry := normalize_response float_of_str (PyDict (<["result" := y]> m)) in
  without_raw (trace rx) = without_raw (trace ry) ∧ outcome rx = outcome ry ∧
  (∀ t, after_extraction float_of_str (PyDict (<["result" := x]> m)) v = (t, inr ()) →
        rx = (t, inr ()) ∧ ry = (t, inr ())).
Proof.
  intros Hx Hy rx ry. subst rx ry.
  rewrite !normalize_response_extracted, !extracted_insert, Hx, Hy, !bind_ret.
  rewrite (after_extraction_insert_result m y x v).
  destruct (after_extraction _ _ v) as [t [e|[]]]; cbn.
  - unfold without_raw. rewrite !List.filter_app. cbn. split; [reflexivity|].
    split; [reflexivity|]. intros t' [=].
  - split; [reflexivity|]. split; [reflexivity|]. by intros t' [= <-].
Qed.

(** C1. For a value [v] that is not itself a list, the responses whose
    [result] is [[[v]]], [[v]] and [v] all extract [v]; the nested shape is
    tried first (a list whose first element is a list yields that element's
    first element, whatever it is), the flat shape second, the direct value
    last.  The three runs of the block show the same things, the dump of the
    raw response apart; a gauge that one of them draws is drawn from
    [float(v)]; and when [v] converts to the float [f], [release] is absent
    or an object and [st.metric] takes the model version, all three end in
    the same complete display of [f]. *)
Theorem three_shapes_one_value (m : gmap string pyval) (v : pyval) :
  is_list v = false →
  let nested := PyDict (<["result" := PyList [PyList [v]]]> m) in
  let flat := PyDict (<["result" := PyList [v]]> m) in
  let direct := PyDict (<["result" := v]> m) in
  (extracted nested = mret v ∧ extracted flat = mret v ∧ extracted direct = mret v) ∧
  (∀ x l0 l, extract_pred_value (PyList (PyList (x :: l0) :: l)) = mret x) ∧
  (∀ l, extract_pred_value (PyList (v :: l)) = mret v) ∧
  (without_raw (trace (normalize_response float_of_str nested)) =
     without_raw (trace (normalize_response float_of_str direct)) ∧
   without_raw (trace (normalize_response float_of_str flat)) =
     without_raw (trace (normalize_response float_of_str direct))) ∧
  (∀ result fig wide,
     result = nested ∨ result = flat ∨ result = direct →
     st_plotly_chart fig wide ∈ trace (normalize_response float_of_str result) →
     ∃ f, py_float float_of_str v = inr f ∧ fig = draw_gauge f) ∧
  (∀ f model_version,
     py_float float_of_str v = inr f →
     m !! "release" = None ∧ model_version = PyStr "Unknown" ∨
     (∃ rel, m !! "release" = Some (PyDict rel) ∧
             model_version = default (PyStr "Unknown") (rel !! "model_version_number")) →
     metric_accepts model_version = true →
     let shown :=
       (displayed f model_version (default (PyInt 0) (m !! "model_time_in_ms")), inr ()) in
     normalize_response float_of_str nested = shown ∧
     normalize_response float_of_str flat = shown ∧
     normalize_response float_of_str direct = shown).
Proof.
  intros Hv nested flat direct.
  pose proof (extract_nested v [] []) as Hn.
  pose proof (extract_flat v [] Hv) as Hf.
  pose proof (extract_direct v Hv) as Hd.
  assert (extracted nested = mret v ∧ extracted flat = mret v ∧ extracted direct = mret v)
    as Hx by (subst nested flat direct; by rewrite !extracted_insert).
  split; [exact Hx|]. split; [|split; [|split; [|split]]].
  - intros x l0 l. apply extract_nested.
  - intros l. by apply extract_flat.
  - split.
    + apply (normalize_response_same_value m _ _ v Hn Hd).
    + apply (normalize_response_same_value m _ _ v Hf Hd).
  - destruct Hx as (Hxn & Hxf & Hxd).
    intros result fig wide [->|[->| ->]]; by apply gauge_from_extracted.
  - intros f mv Hfl Hrel Hmv shown.
    assert (is_None v = false) as Hnone by (by destruct v).
    assert (∀ x, extract_pred_value x = mret v →
              normalize_response float_of_str (PyDict (<["result" := x]> m)) = shown)
      as Hall.
    { intros x Hx'.
      rewrite (normalize_response_float _ v f); [| by rewrite extracted_insert | done..].
      rewrite (lookup_insert_ne _ "result" "release") by done.
      rewrite (lookup_insert_ne _ "result" "model_time_in_ms") by done.
      subst shown. unfold display_under_handler.
      by destruct Hrel as [[-> ->]|(rel & -> & ->)]; rewrite Hmv. }
    subst nested flat direct. by rewrite !Hall.
Qed.

(** C3 (as amended). When the primary value is extracted and converted and
    [release] is absent or is itself an object, the metadata is extracted:
    the model version is [release.model_version_number], or "Unknown" when
    [release] or the number is missing, and the response time is
    [model_time_in_ms], or 0 when it is missing.  The block then ends in the
    complete display when [st.metric] takes the model version ([None], a
    number, a boolean or a string); for a list or an object it shows the
    columns and ends in the handler's diagnostic with the [TypeError] of
    [st.metric]. *)
Theorem metadata_defaults (m : gmap string pyval) (v : pyval) (f : spec_float) :
  extracted (PyDict m) = mret v →
  is_None v = false →
  py_float float_of_str v = inr f →
  m !! "release" = None ∨ (∃ rel, m !! "release" = Some (PyDict rel)) →
  ∃ model_version response_time,
    (m !! "release" = None → model_version = PyStr "Unknown") ∧
    (∀ rel, m !! "release" = Some (PyDict rel) →
            model_version = default (PyStr "Unknown") (rel !! "model_version_number")) ∧
    response_time = default (PyInt 0) (m !! "model_time_in_ms") ∧
    (metric_accepts model_version = true →
     normalize_response float_of_str (PyDict m) =
       (displayed f model_version response_time, inr ())) ∧
    (metric_accepts model_version = false →
     normalize_response float_of_str (PyDict m) =
       (st_columns 2 :: parse_failure (metric_error model_version) (PyDict m), inr ())).
Proof.
  intros Hx Hv Hf Hrel.
  rewrite (normalize_response_float m v f Hx Hv Hf). unfold display_under_handler.
  destruct Hrel as [Hnone|[rel Hrel]].
  - rewrite Hnone. eexists _, _.
    split; [done|]. split; [intros rel [=]|]. split; [done|].
    split; intros Hmv; by rewrite Hmv.
  - rewrite Hrel. eexists _, _.
    split; [intros [=]|]. split; [by intros rel' [= <-]|]. split; [done|].
    split; intros Hmv; by rewrite Hmv.
Qed.

(** C5. When the extracted value is [None] (no [result] key, a [null]
    result, or [null] as the first element of either list shape), the block
    reports "Could not extract a prediction value." and nothing else, and
    ends normally. *)
Theorem missing_value_is_reported (result : pyval) :
  extracted result = mret PyNone →
  normalize_response float_of_str result = (missing_value, inr ()).
Proof. intros H. by rewrite normalize_response_extracted, H. Qed.

(** C6. When the extracted value is present but [float] raises on it, the
    block ends normally in the handler's report, which carries the
    exception [float] raised (a [ValueError], [TypeError] or
    [OverflowError], never the [IndexError] of an empty list) and the raw
    response, and which differs from the report of a missing value. *)
Theorem unconvertible_value_is_reported (result v : pyval) (e : exn) :
  extracted result = mret v →
  is_None v = false →
  py_float float_of_str v = inl e →
  normalize_response float_of_str result = (parse_failure e result, inr ()) ∧
  parse_failure e result ≠ missing_value ∧
  (exn_type e = ValueError ∨ exn_type e = TypeError ∨ exn_type e = OverflowError) ∧
  e ≠ index_error.
Proof.
  intros Hx Hv Hf.
  assert (exn_type e = ValueError ∨ exn_type e = TypeError ∨ exn_type e = OverflowError)
    as Hty.
  { destruct v as [|b|z|f|s|l|m]; simpl in Hf; try (injection Hf as <-; auto; fail).
    - discriminate.
    - unfold float_of_int in Hf.
      destruct (binary_normalize _ _ _ _ _); try discriminate.
      injection Hf as <-. auto.
    - discriminate.
    - destruct (float_of_str s); [discriminate|]. injection Hf as <-. auto. }
  split; [by apply (normalize_response_not_float result v e)|].
  split; [discriminate|]. split; [exact Hty|].
  intros ->. by destruct Hty as [|[|]].
Qed.

(** C9. When [result] is the empty list, or a list whose first element is
    the empty list, the index raises [IndexError]; the handler catches it
    and the block ends normally with the diagnostic and the raw response,
    not with the report of a missing value. *)
Theorem empty_list_is_reported (m : gmap string pyval) (l : list pyval) :
  m !! "result" = Some (PyList []) ∨ m !! "result" = Some (PyList (PyList [] :: l)) →
  normalize_response float_of_str (PyDict m) =
    (parse_failure index_error (PyDict m), inr ()) ∧
  parse_failure index_error (PyDict m) ≠ missing_value.
Proof.
  intros H. split; [|discriminate].
  apply normalize_response_raises. rewrite extracted_dict.
  by destruct H as [-> | ->].
Qed.

End TabFacts.

(** ** Closed examples *)

(** The sample conversion agrees with the sample constants. *)
Lemma float_of_decimal_samples :
  float_of_decimal "5.67" = Some f_5_67 ∧
  float_of_decimal "0.993" = Some f_0_993 ∧
  float_of_decimal "0.99" = Some (S754_finite false 8917127262193582 (-53)) ∧
  float_of_decimal "not-a-number" = None.
Proof. repeat split. Qed.

(** The sample conversion on an exponent, on surrounding whitespace, on
    underscores and on the special values. *)
Lemma float_of_decimal_grammar :
  float_of_decimal "1e3" = Some (S754_finite false 8796093022208000 (-43)) ∧
  float_of_decimal " 5.67 " = Some f_5_67 ∧
  float_of_decimal "5_6.7e-1" = Some f_5_67 ∧
  float_of_decimal "-Infinity" = Some (S754_infinity true) ∧
  float_of_decimal "nan" = Some S754_nan ∧
  float_of_decimal "1e" = None ∧
  float_of_decimal "" = None.
Proof. repeat split. Qed.

(** A list as model version: the columns are shown, [st.metric] refuses the
    list, and the handler reports it. *)
Lemma list_version_is_refused :
  let result :=
    PyDict (<["release" := PyDict {[ "model_version_number" := PyList [PyInt 1; PyInt 2] ]}]>
              {[ "result" := PyFloat f_5_67 ]}) in
  normalize_response float_of_decimal result =
    (st_columns 2 :: parse_failure (metric_error (PyList [PyInt 1; PyInt 2])) result,
     inr ()).
Proof. reflexivity. Qed.

Lemma three_shapes_one_value_witness :
  let nested := PyDict (<["result" := PyList [PyList [PyFloat f_5_67]]]> sample_metadata) in
  let flat := PyDict (<["result" := PyList [PyFloat f_5_67]]> sample_metadata) in
  let direct := PyDict (<["result" := PyFloat f_5_67]> sample_metadata) in
  let shown := (displayed f_5_67 (PyInt 3) (PyInt 12), inr ()) in
  is_list (PyFloat f_5_67) = false ∧
  (extracted nested = mret (PyFloat f_5_67) ∧
   extracted flat = mret (PyFloat f_5_67) ∧
   extracted direct = mret (PyFloat f_5_67)) ∧
  (normalize_response float_of_decimal nested = shown ∧
   normalize_response float_of_decimal flat = shown ∧
   normalize_response float_of_decimal direct = shown).
Proof.
  cbv zeta. split; [reflexivity|].
  refine (let '(conj Hextracted (conj _ (conj _ (conj _ (conj _ Hshown))))) :=
            three_shapes_one_value float_of_decimal sample_metadata (PyFloat f_5_67) _ in
          conj Hextracted (Hshown f_5_67 (PyInt 3) _ _ _));
    [reflexivity | reflexivity | | reflexivity].
  right. exists {[ "model_version_number" := PyInt 3 ]}. split; reflexivity.
Defined.

(** [is_red = 2] is sent as 2. *)
Lemma is_red_two_is_sent_as_two :
  posts (trace (get_prediction sample_environ unreachable feat1 feat2 feat3 (NumInt 2) feat5))
    = [sample_request 2] ∧
  payload_field (sample_request 2) "is_red" = Some (PyInt 2) ∧
  PyInt 2 ≠ PyInt 0 ∧ PyInt 2 ≠ PyInt 1.
Proof. repeat split; discriminate. Qed.

Lemma is_red_serialized_as_int_witness :
  not_set (sample_environ !! "API_URL") = false ∧
  int_of_num (NumBool true) = inr 1 ∧
  posts (trace (get_prediction sample_environ unreachable
                  feat1 feat2 feat3 (NumBool true) feat5)) = [sample_request 1] ∧
  payload_field (sample_request 1) "is_red" = Some (PyInt 1).
Proof.
  split; [reflexivity|]. split; [reflexivity|].
  refine (let '(conj H1 (conj H2 _)) :=
            is_red_serialized_as_int sample_environ unreachable
              feat1 feat2 feat3 (NumBool true) feat5
              "0.99" "0.25" "0.05" 1 "10.00" _ _ _ _ _ _ in
          conj H1 H2); reflexivity.
Defined.

(** A [null] under [release] ends the block in the handler although the
    primary value was extracted and converted. *)
Lemma release_null_fails_normalization :
  let result := PyDict (<["release" := PyNone]> {[ "result" := PyFloat f_5_67 ]}) in
  extracted result = mret (PyFloat f_5_67) ∧
  py_float float_of_decimal (PyFloat f_5_67) = inr f_5_67 ∧
  normalize_response float_of_decimal result =
    (parse_failure
       (Exn AttributeError (Msg "'NoneType' object has no attribute 'get'"))
       result, inr ()) ∧
  ∀ model_version response_time,
    normalize_response float_of_decimal result ≠
    display_prediction f_5_67 model_version response_time.
Proof.
  cbv zeta. split; [reflexivity|]. split; [reflexivity|]. split; [reflexivity|].
  intros model_version response_time H. rewrite display_prediction_run in H.
  destruct (metric_accepts model_version); discriminate H.
Qed.

Lemma metadata_defaults_witness :
  extracted (PyDict {[ "result" := PyFloat f_5_67 ]}) = mret (PyFloat f_5_67) ∧
  normalize_response float_of_decimal (PyDict {[ "result" := PyFloat f_5_67 ]}) =
    (displayed f_5_67 (PyStr "Unknown") (PyInt 0), inr ()).
Proof.
  split; [reflexivity|].
  refine (let '(ex_intro _ model_version (ex_intro _ response_time
                 (conj Hversion (conj _ (conj Htime (conj Hshown _)))))) :=
            metadata_defaults float_of_decimal {[ "result" := PyFloat f_5_67 ]}
              (PyFloat f_5_67) f_5_67 _ _ _ _ in _);
    [reflexivity | reflexivity | reflexivity | left; reflexivity |].
  rewrite (Hversion eq_refl), Htime in Hshown. exact (Hshown eq_refl).
Defined.

Lemma unset_endpoint_sends_nothing_witness :
  not_set ((∅ : gmap string string) !! "API_URL") = true ∧
  posts (trace (get_prediction ∅ (answers "{}" (PyDict ∅)) feat1 feat2 feat3 feat4 feat5)) = [].
Proof.
  split; [reflexivity|].
  refine (proj1 (proj2 (unset_endpoint_sends_nothing ∅ (answers "{}" (PyDict ∅))
                         feat1 feat2 feat3 feat4 feat5 _))); reflexivity.
Defined.

Lemma missing_value_is_reported_witness :
  extracted (PyDict {[ "result" := PyNone ]}) = mret PyNone ∧
  normalize_response float_of_decimal (PyDict {[ "result" := PyNone ]}) =
    (missing_value, inr ()).
Proof.
  split; [reflexivity|].
  refine (missing_value_is_reported float_of_decimal (PyDict {[ "result" := PyNone ]}) _).
  reflexivity.
Defined.

Lemma unconvertible_value_is_reported_witness :
  let result := PyDict {[ "result" := PyStr "not-a-number" ]} in
  let e := Exn ValueError (MsgRepr "could not convert string to float: " "not-a-number") in
  extracted result = mret (PyStr "not-a-number") ∧
  py_float float_of_decimal (PyStr "not-a-number") = inl e ∧
  normalize_response float_of_decimal result = (parse_failure e result, inr ()).
Proof.
  cbv zeta. split; [reflexivity|]. split; [reflexivity|].
  refine (proj1 (unconvertible_value_is_reported float_of_decimal
                  (PyDict {[ "result" := PyStr "not-a-number" ]})
                  (PyStr "not-a-number") _ _ _ _)); reflexivity.
Defined.


Lemma transport_failure_is_reported_witness :
  unreachable (sample_request 1) = inl connection_error ∧
  is_RequestException connection_error = true ∧
  tab1 float_of_decimal sample_environ unreachable true feat1 feat2 feat3 feat4 feat5 =
    ([st_spinner "Calling API...";
      requests_post (sample_request 1);
      st_error [Lit "HTTP Request failed: "; StrExn connection_error]], inr ()).
Proof.
  split; [reflexivity|]. split; [reflexivity|].
  refine (proj1 (proj2 (transport_failure_is_reported float_of_decimal sample_environ unreachable
                   feat1 feat2 feat3 feat4 feat5 "0.99" "0.25" "0.05" 1 "10.00"
                   connection_error _ _ _ _ _ _ _ _))); reflexivity.
Defined.

Lemma empty_list_is_reported_witness :
  ({[ "result" := PyList [] ]} : gmap string pyval) !! "result" = Some (PyList []) ∧
  normalize_response float_of_decimal (PyDict {[ "result" := PyList [] ]}) =
    (parse_failure index_error (PyDict {[ "result" := PyList [] ]}), inr ()).
Proof.
  split; [reflexivity|].
  refine (proj1 (empty_list_is_reported float_of_decimal {[ "result" := PyList [] ]} []
                   _)).
  left. reflexivity.
Defined.

Lemma falsy_result_shows_nothing_witness :
  truthy (PyDict ∅) = false ∧
  tab1 float_of_decimal sample_environ (answers "{}" (PyDict ∅)) true
       feat1 feat2 feat3 feat4 feat5 =
    ([st_spinner "Calling API..."; requests_post (sample_request 1)], inr ()).
Proof.
  split; [reflexivity|].
  refine (proj1 (falsy_result_shows_nothing float_of_decimal sample_environ
                   (answers "{}" (PyDict ∅)) feat1 feat2 feat3 feat4 feat5
                   "0.99" "0.25" "0.05" 1 "10.00" (Response "{}" (inr (PyDict ∅))) (PyDict ∅)
                   _ _ _ _ _ _ _ _ _)); reflexivity.
Defined.

(** * Further properties of the dashboard *)

(** ** The client's other paths *)

(** X1. A body that is not JSON: when [response.json()] raises a
    [JSONDecodeError], the client reports "API did not return valid JSON.",
    writes the body text, and returns [None]; the tab shows nothing more and
    ends normally. *)
Theorem invalid_json_is_reported (float_of_str : string → option spec_float)
    environ transport d v c r a ds vs cs i az resp e :
  not_set (environ !! "API_URL") = false →
  format_num_2f d = inr ds →
  format_num_2f v = inr vs →
  format_num_2f c = inr cs →
  int_of_num r = inr i →
  format_num_2f a = inr az →
  transport (sent_request environ ds vs cs i az) = inr resp →
  json resp = inl e →
  is_JSONDecodeError e = true →
  get_prediction environ transport d v c r a =
    ([requests_post (sent_request environ ds vs cs i az);
      st_error [Lit "API did not return valid JSON."];
      st_write [Lit (text resp)]], inr PyNone) ∧
  tab1 float_of_str environ transport true d v c r a =
    ([st_spinner "Calling API...";
      requests_post (sent_request environ ds vs cs i az);
      st_error [Lit "API did not return valid JSON."];
      st_write [Lit (text resp)]], inr ()).
Proof.
  intros Hset Hd Hv Hc Hr Ha Ht Hj He.
  assert (get_prediction environ transport d v c r a =
    ([requests_post (sent_request environ ds vs cs i az);
      st_error [Lit "API did not return valid JSON."];
      st_write [Lit (text resp)]], inr PyNone)) as Hget.
  { run_client Hset Hd Hv Hc Hr Ha. by rewrite Ht, Hj, He. }
  split; [exact Hget|]. unfold tab1. by rewrite Hget.
Qed.

(** X2. Only [RequestException] is caught around the request: any other
    exception the transport raises leaves [get_prediction] after the request,
    with nothing reported, and leaves the tab too, whose call to the client
    is outside the [try] block. *)
Theorem other_exceptions_escape (float_of_str : string → option spec_float)
    environ transport d v c r a ds vs cs i az e :
  not_set (environ !! "API_URL") = false →
  format_num_2f d = inr ds →
  format_num_2f v = inr vs →
  format_num_2f c = inr cs →
  int_of_num r = inr i →
  format_num_2f a = inr az →
  transport (sent_request environ ds vs cs i az) = inl e →
  is_RequestException e = false →
  get_prediction environ transport d v c r a =
    ([requests_post (sent_request environ ds vs cs i az)], inl e) ∧
  tab1 float_of_str environ transport true d v c r a =
    ([st_spinner "Calling API...";
      requests_post (sent_request environ ds vs cs i az)], inl e).
Proof.
  intros Hset Hd Hv Hc Hr Ha Ht He.
  assert (get_prediction environ transport d v c r a =
    ([requests_post (sent_request environ ds vs cs i az)], inl e)) as Hget.
  { run_client Hset Hd Hv Hc Hr Ha. by rewrite Ht, He. }
  split; [exact Hget|]. unfold tab1. by rewrite Hget.
Qed.

Lemma format_num_2f_raises x e :
  format_num_2f x = inl e → (∃ z, x = NumInt z) ∧ exn_type e = OverflowError.
Proof.
  destruct x as [b|z|f]; simpl; try discriminate.
  unfold float_of_int. destruct (binary_normalize _ _ _ _ _); try discriminate.
  intros [= <-]. eauto.
Qed.

Lemma int_of_num_raises x e :
  int_of_num x = inl e →
  (∃ f, x = NumFloat f ∧ is_finite f = false) ∧
  (exn_type e = OverflowError ∨ exn_type e = ValueError).
Proof.
  destruct x as [b|z|f]; simpl; try discriminate.
  destruct f; simpl; try discriminate; intros [= <-]; eauto.
Qed.

(** X3. An argument that cannot be rendered stops the client before the
    request.  When one of the five conversions raises (an integer too large
    for [float] in a decimal field, a NaN or an infinity for [is_red]),
    [get_prediction] raises that exception, an [OverflowError] or a
    [ValueError], with nothing sent and nothing reported; the exception
    leaves the tab after the spinner, because the call to the client is
    outside the [try] block. *)
Theorem unrenderable_argument_sends_nothing (float_of_str : string → option spec_float)
    environ transport d v c r a e :
  not_set (environ !! "API_URL") = false →
  first_raises d v c r a e →
  get_prediction environ transport d v c r a = ([], inl e) ∧
  tab1 float_of_str environ transport true d v c r a =
    ([st_spinner "Calling API..."], inl e) ∧
  (exn_type e = OverflowError ∨ exn_type e = ValueError).
Proof.
  intros Hset H.
  assert (get_prediction environ transport d v c r a = ([], inl e)) as Hget.
  { unfold get_prediction. rewrite Hset.
    destruct H as [->|(ds & -> & H)]; [done|]. rewrite bind_lift_inr.
    destruct H as [->|(vs & -> & H)]; [done|]. rewrite bind_lift_inr.
    destruct H as [->|(cs & -> & H)]; [done|]. rewrite bind_lift_inr.
    destruct H as [->|(i & -> & ->)]; [done|]. by rewrite bind_lift_inr. }
  split; [exact Hget|]. split; [unfold tab1; by rewrite Hget|].
  destruct H as [H|(ds & _ & [H|(vs & _ & [H|(cs & _ & [H|(i & _ & H)])])])];
    first [ apply format_num_2f_raises in H as [_ H]; by left
          | by apply int_of_num_raises in H as [_ H] ].
Qed.

(** Every run of the client ends in one of five ways. *)
Lemma get_prediction_cases environ transport d v c r a :
  let run := get_prediction environ transport d v c r a in
  run = ([st_error [Lit "API_URL environment variable is not set."]], inr PyNone) ∨
  (∃ e, run = ([], inl e)) ∨
  ∃ req,
    (∃ e, transport req = inl e ∧
          (run = ([requests_post req;
                   st_error [Lit "HTTP Request failed: "; StrExn e]], inr PyNone) ∨
           run = ([requests_post req], inl e))) ∨
    (∃ resp, transport req = inr resp ∧
       ((∃ result, json resp = inr result ∧ run = ([requests_post req], inr result)) ∨
        (∃ e, json resp = inl e ∧
           (run = ([requests_post req;
                    st_error [Lit "API did not return valid JSON."];
                    st_write [Lit (text resp)]], inr PyNone) ∨
            run = ([requests_post req;
                    st_error [Lit "HTTP Request failed: "; StrExn e]], inr PyNone) ∨
            run = ([requests_post req], inl e))))).
Proof.
  cbv zeta.
  destruct (not_set (environ !! "API_URL")) eqn:Hset.
  { left. by apply get_prediction_unset. }
  right.
  destruct (format_num_2f d) as [e|ds] eqn:Hd.
  { left. exists e. unfold get_prediction. by rewrite Hset, Hd. }
  destruct (format_num_2f v) as [e|vs] eqn:Hv.
  { left. exists e. unfold get_prediction. by rewrite Hset, Hd, Hv. }
  destruct (format_num_2f c) as [e|cs] eqn:Hc.
  { left. exists e. unfold get_prediction. by rewrite Hset, Hd, Hv, Hc. }
  destruct (int_of_num r) as [e|i] eqn:Hr.
  { left. exists e. unfold get_prediction. by rewrite Hset, Hd, Hv, Hc, Hr. }
  destruct (format_num_2f a) as [e|az] eqn:Ha.
  { left. exists e. unfold get_prediction. by rewrite Hset, Hd, Hv, Hc, Hr, Ha. }
  right. exists (sent_request environ ds vs cs i az).
  run_client Hset Hd Hv Hc Hr Ha.
  destruct (transport _) as [e|resp].
  - left. exists e. split; [done|]. destruct (is_RequestException e); auto.
  - right. exists resp. split; [done|].
    destruct (json resp) as [e|result]; [right|left; eauto].
    exists e. split; [done|].
    destruct (is_JSONDecodeError e); [auto|].
    destruct (is_RequestException e); auto.
Qed.

(** ** Every way the normalisation block can end *)

Section MoreTabFacts.

Variable float_of_str : string → option spec_float.

(** X6. The report of a missing value appears for exactly four shapes of
    response: no [result] key, a [null] result, and [null] at the head of
    the flat or of the nested list. *)
Theorem missing_value_exactly (m : gmap string pyval) :
  normalize_response float_of_str (PyDict m) = (missing_value, inr ()) ↔
  m !! "result" = None ∨ m !! "result" = Some PyNone ∨
  (∃ l, m !! "result" = Some (PyList (PyNone :: l))) ∨
  (∃ l0 l, m !! "result" = Some (PyList (PyList (PyNone :: l0) :: l))).
Proof.
  rewrite <- extracted_None. split.
  - intros H.
    destruct (normalize_response_ends float_of_str (PyDict m))
      as [[Hx _]|[[e He]|[(v & f & mv & rt & _ & _ & _ & _ & Hd)|
                          (v & f & mv & rt & _ & _ & _ & _ & Hd)]]]; [done|..].
    + rewrite He in H. discriminate H.
    + rewrite Hd in H. discriminate H.
    + rewrite Hd in H. discriminate H.
  - intros H. by rewrite normalize_response_extracted, H.
Qed.

(** X7. A prediction is displayed in full exactly when the extracted value
    is not [None], converts to a float, [release] is absent or an object,
    and the model version is a value [st.metric] takes; the value displayed,
    the version and the time are then determined by the response. *)
Theorem prediction_displayed_exactly (m : gmap string pyval) f model_version response_time :
  normalize_response float_of_str (PyDict m) =
    (displayed f model_version response_time, inr ()) ↔
  ∃ v, extracted (PyDict m) = mret v ∧ is_None v = false ∧
       py_float float_of_str v = inr f ∧
       (m !! "release" = None ∧ model_version = PyStr "Unknown" ∨
        ∃ rel, m !! "release" = Some (PyDict rel) ∧
               model_version = default (PyStr "Unknown") (rel !! "model_version_number")) ∧
       metric_accepts model_version = true ∧
       response_time = default (PyInt 0) (m !! "model_time_in_ms").
Proof.
  split.
  - intros H.
    destruct (normalize_response_ends float_of_str (PyDict m))
      as [[_ Hm]|[[e He]|[(v & f' & mv & rt & Hx & Hv & Hf & Hmv & Hd)|
                          (v & f' & mv & rt & _ & _ & _ & _ & Hd)]]].
    + rewrite Hm in H. discriminate H.
    + rewrite He in H. discriminate H.
    + exists v. split; [done|]. split; [done|].
      rewrite Hd in H. unfold displayed in H. simplify_eq.
      split; [done|].
      rewrite (normalize_response_float float_of_str m v f Hx Hv Hf) in Hd.
      unfold display_under_handler in Hd.
      destruct (m !! "release") as [[| | | | | |rel]|] eqn:Hrel; try discriminate Hd.
      * destruct (metric_accepts (default _ (rel !! _))); [|discriminate Hd].
        unfold displayed in Hd. simplify_eq. split; [eauto|done].
      * cbn in Hd. unfold displayed in Hd. simplify_eq. split; [eauto|done].
    + rewrite Hd in H. discriminate H.
  - intros (v & Hx & Hv & Hf & Hrel & Hmv & ->).
    rewrite (normalize_response_float float_of_str m v f Hx Hv Hf).
    unfold display_under_handler.
    by destruct Hrel as [[-> ->]|(rel & -> & ->)]; rewrite Hmv.
Qed.

(** X8. A response whose top level is not an object (a bare number, a
    string, a list) has no [get]: the block ends in the handler's diagnostic
    with the [AttributeError], even when the value is itself a number. *)
Theorem non_object_is_reported result :
  (∀ m, result ≠ PyDict m) →
  normalize_response float_of_str result =
    (parse_failure
       (Exn AttributeError
          (Msg ("'" +:+ type_name result +:+ "' object has no attribute 'get'")))
       result, inr ()).
Proof.
  intros H. destruct result; try reflexivity. by destruct (H m).
Qed.

(** The block sends nothing and lets no exception out. *)
Lemma normalize_response_posts result :
  posts (trace (normalize_response float_of_str result)) = [] ∧
  outcome (normalize_response float_of_str result) = inr ().
Proof.
  destruct (normalize_response_ends float_of_str result)
    as [[_ ->]|[[e ->]|[(v & f & mv & rt & _ & _ & _ & _ & ->)|
                        (v & f & mv & rt & _ & _ & _ & _ & ->)]]]; done.
Qed.

(** X5. Whatever the response, the block ends normally in exactly one of
    four ways: the report of a missing value (the extracted value is
    [None]); the diagnostic of the handler with the raw response and nothing
    before it; the complete display of the converted value; or, for a model
    version that [st.metric] refuses, the columns followed by the
    diagnostic.  No exception leaves the block, it sends no request, and
    the columns are the only thing a diagnostic can follow. *)
Theorem normalize_response_cases result :
  ((extracted result = mret PyNone ∧
    normalize_response float_of_str result = (missing_value, inr ())) ∨
   (∃ e, normalize_response float_of_str result = (parse_failure e result, inr ())) ∨
   (∃ (v : pyval) (f : spec_float) (model_version response_time : pyval),
      extracted result = mret v ∧ is_None v = false ∧
      py_float float_of_str v = inr f ∧
      metric_accepts model_version = true ∧
      normalize_response float_of_str result =
        (displayed f model_version response_time, inr ())) ∨
   (∃ (v : pyval) (f : spec_float) (model_version : pyval),
      extracted result = mret v ∧ is_None v = false ∧
      py_float float_of_str v = inr f ∧
      metric_accepts model_version = false ∧
      normalize_response float_of_str result =
        (st_columns 2 :: parse_failure (metric_error model_version) result, inr ()))) ∧
  outcome (normalize_response float_of_str result) = inr () ∧
  posts (trace (normalize_response float_of_str result)) = [].
Proof.
  split.
  - destruct (normalize_response_ends float_of_str result)
      as [H|[H|[H|(v & f & mv & rt & H)]]]; [by left|by right; left|by right; right; left|].
    right. right. right. by exists v, f, mv.
  - destruct (normalize_response_posts result) as [Hp Ho]. by split.
Qed.

(** X4. No retry: whatever the configuration, the arguments and the answer
    of the transport, the client sends at most one request, and so does a
    whole run of the tab, which shows and sends nothing when the button is
    not pressed. *)
Theorem at_most_one_request environ transport (predict_btn : bool) d v c r a :
  (length (posts (trace (get_prediction environ transport d v c r a))) ≤ 1)%nat ∧
  (length (posts (trace (tab1 float_of_str environ transport predict_btn d v c r a))) ≤ 1)%nat ∧
  tab1 float_of_str environ transport false d v c r a = ([], inr ()).
Proof.
  assert (length (posts (trace (get_prediction environ transport d v c r a))) ≤ 1)%nat
    as Hget.
  { destruct (get_prediction_cases environ transport d v c r a)
      as [->|[[e ->]|[req [(e & _ & [->| ->])|(resp & _ & [(result & _ & ->)|
           (e & _ & [->|[->| ->]])])]]]]; simpl; lia. }
  split; [exact Hget|]. split; [|done].
  unfold tab1. destruct predict_btn; [|simpl; lia].
  destruct (get_prediction environ transport d v c r a) as [t [e|result]];
    [exact Hget|].
  cbn in Hget |- *. destruct (truthy result).
  - pose proof (normalize_response_posts result) as [Hn _].
    destruct (normalize_response float_of_str result) as [tn rn].
    cbn in Hn |- *. unfold posts in *. rewrite omap_app, Hn, app_nil_r. exact Hget.
  - cbn. by rewrite app_nil_r.
Qed.

(** X9. The tab composes the client and the block: when the client returns
    a value that Python treats as true, the tab's trace is the spinner, the
    client's trace and the block's trace, in that order, and the run ends
    normally; when the value is false the block's part is missing. *)
Theorem tab1_composes environ transport d v c r a t result :
  get_prediction environ transport d v c r a = (t, inr result) →
  tab1 float_of_str environ transport true d v c r a =
    (st_spinner "Calling API..." :: t ++
       (if truthy result then trace (normalize_response float_of_str result) else []),
     inr ()).
Proof.
  intros Hget. unfold tab1. rewrite Hget.
  pose proof (normalize_response_posts result) as [_ Hn].
  cbn. destruct (truthy result); [|reflexivity].
  destruct (normalize_response float_of_str result) as [tn rn].
  cbn in Hn |- *. by subst.
Qed.

(** X10. When a run of the client ends normally, either nothing was
    reported and the value returned is the parsed body of the one response,
    or exactly one error was reported and the value is [None].  So a [None]
    comes without a report only when the body itself is the JSON [null]. *)
Theorem every_failure_is_announced environ transport d v c r a t result :
  get_prediction environ transport d v c r a = (t, inr result) →
  ((errors t = [] ∧
    ∃ req resp, t = [requests_post req] ∧ transport req = inr resp ∧
                json resp = inr result) ∨
   (result = PyNone ∧ ∃ msg, errors t = [msg])) ∧
  (result = PyNone → errors t = [] →
   ∃ req resp, t = [requests_post req] ∧ transport req = inr resp ∧
               json resp = inr PyNone).
Proof.
  intros Hrun.
  assert ((errors t = [] ∧
           ∃ req resp, t = [requests_post req] ∧ transport req = inr resp ∧
                       json resp = inr result) ∨
          (result = PyNone ∧ ∃ msg, errors t = [msg])) as H.
  { destruct (get_prediction_cases environ transport d v c r a)
      as [H|[[e H]|[req [(e & Ht & [H|H])|(resp & Ht & [(res & Hj & H)|
           (e & Hj & [H|[H|H]])])]]]];
      cbv zeta in H; rewrite Hrun in H; simplify_eq; eauto 10. }
  split; [exact H|].
  intros -> Herr. destruct H as [[_ H]|[_ [msg Hmsg]]]; [exact H|].
  rewrite Herr in Hmsg. discriminate Hmsg.
Qed.

(** ** The display *)

(** X11. Whatever the value, also outside the axis, the gauge is built
    with that value unchanged, as the number shown and as the threshold,
    over the axis from 3 to 10, and its three bands tile the axis: they
    start at 3, end at 10, and each starts where the one before ends. *)
Theorem gauge_bands_tile_axis (x : spec_float) :
  value (draw_gauge x) = x ∧
  threshold_value (draw_gauge x) = x ∧
  axis_range (draw_gauge x) = (3, 10) ∧
  tiles (axis_range (draw_gauge x)).1 (axis_range (draw_gauge x)).2
        (steps (draw_gauge x)) = true ∧
  length (steps (draw_gauge x)) = 3%nat.
Proof. repeat split. Qed.


End MoreTabFacts.

(** * Properties of the training script *)

Lemma replace_spaces_idemp s : replace_spaces (replace_spaces s) = replace_spaces s.
Proof.
  induction s as [|c s IH]; simpl; [done|]. rewrite IH.
  destruct (Ascii.eqb c " ") eqn:Hc; [done|]. by rewrite Hc.
Qed.

Lemma rename_id label columns : rename label label columns = columns.
Proof.
  unfold rename. induction columns as [|c cs IH]; [done|].
  rewrite fmap_cons, IH. by destruct (String.eqb_spec c label) as [->|?].
Qed.

(** The loop over a snapshot: when every current label that still has a
    space is yet to come in the snapshot, the rest of the loop replaces the
    spaces of every label. *)
Lemma rename_loop (snapshot current : list string) :
  (∀ label, label ∈ current → replace_spaces label ≠ label → label ∈ snapshot) →
  foldl (λ cur col, rename col (replace_spaces col) cur) current snapshot =
    replace_spaces <$> current.
Proof.
  revert current. induction snapshot as [|col rest IH]; intros current Hcur; simpl.
  - rewrite <- (list_fmap_id current) at 1. apply list_fmap_ext.
    intros i label Hi. simpl.
    destruct (decide (replace_spaces label = label)) as [|Hne]; [done|].
    apply Hcur in Hne; [by apply elem_of_nil in Hne|].
    by apply list_elem_of_lookup_2 in Hi.
  - rewrite IH.
    + unfold rename. rewrite <- list_fmap_compose. apply list_fmap_ext.
      intros _ label _. simpl.
      destruct (String.eqb_spec label col) as [->|?]; [apply replace_spaces_idemp|done].
    + intros label Hin Hne. unfold rename in Hin.
      apply list_elem_of_fmap in Hin as (c & -> & Hc).
      destruct (String.eqb_spec c col) as [->|Hcol].
      * by rewrite replace_spaces_idemp in Hne.
      * apply Hcur in Hne; [|done]. by apply elem_of_cons in Hne as [?|?].
Qed.

Lemma replace_spaces_no_space s : " "%char ∉ list_ascii_of_string (replace_spaces s).
Proof.
  induction s as [|c s IH]; simpl; [apply not_elem_of_nil|].
  apply not_elem_of_cons. split; [|done].
  destruct (Ascii.eqb_spec c " ") as [->|?]; [discriminate|congruence].
Qed.

(** X13. The loop that renames the columns, although it relabels the frame
    while walking the labels it started with, ends with every label having
    its spaces replaced by underscores: as many columns, in the same order,
    none with a space left, and running the loop again changes nothing. *)
Theorem rename_columns_replaces_spaces (columns : list string) :
  rename_columns columns = replace_spaces <$> columns ∧
  length (rename_columns columns) = length columns ∧
  (∀ label, label ∈ rename_columns columns → " "%char ∉ list_ascii_of_string label) ∧
  rename_columns (rename_columns columns) = rename_columns columns.
Proof.
  assert (∀ cs, rename_columns cs = replace_spaces <$> cs) as H.
  { intros cs. by apply rename_loop. }
  rewrite !H. split; [done|]. split; [by rewrite length_fmap|]. split.
  - intros label (s & -> & _)%list_elem_of_fmap. apply replace_spaces_no_space.
  - rewrite <- list_fmap_compose. apply list_fmap_ext. intros _ s _. simpl.
    apply replace_spaces_idemp.
Qed.

Lemma append_assoc (s1 s2 s3 : string) : (s1 +:+ s2) +:+ s3 = s1 +:+ (s2 +:+ s3).
Proof.
  induction s1 as [|c s1 IH]; [done|].
  change (String c ((s1 +:+ s2) +:+ s3) = String c (s1 +:+ (s2 +:+ s3))).
  by rewrite IH.
Qed.

(** X14. The experiment name needs all three environment variables: it is
    the three values joined by single spaces when they are all set, and the
    sum raises [TypeError] as soon as one of them is not. *)
Theorem experiment_name_needs_all_three (environ : gmap string string) :
  match environ !! "DOMINO_PROJECT_NAME", environ !! "DOMINO_STARTING_USERNAME",
        environ !! "MLFLOW_NAME" with
  | Some project, Some user, Some name =>
      experiment_name environ = inr (project +:+ " " +:+ user +:+ " " +:+ name)
  | _, _, _ => ∃ e, experiment_name environ = inl e ∧ exn_type e = TypeError
  end.
Proof.
  unfold experiment_name.
  destruct (environ !! "DOMINO_PROJECT_NAME") as [project|]; simpl;
    [|destruct (environ !! "DOMINO_STARTING_USERNAME"), (environ !! "MLFLOW_NAME"); eauto].
  destruct (environ !! "DOMINO_STARTING_USERNAME") as [user|]; simpl;
    [|destruct (environ !! "MLFLOW_NAME"); eauto].
  destruct (environ !! "MLFLOW_NAME") as [name|]; simpl; [|eauto].
  f_equal. by rewrite !append_assoc.
Qed.

(** ** Closed examples of the further properties *)

Lemma invalid_json_is_reported_witness :
  not_json (sample_request 1) =
    inr (Response "<html>Bad Gateway</html>"
           (inl (Exn JSONDecodeError (Msg "Expecting value: line 1 column 1 (char 0)")))) ∧
  tab1 float_of_decimal sample_environ not_json true feat1 feat2 feat3 feat4 feat5 =
    ([st_spinner "Calling API...";
      requests_post (sample_request 1);
      st_error [Lit "API did not return valid JSON."];
      st_write [Lit "<html>Bad Gateway</html>"]], inr ()).
Proof.
  split; [reflexivity|].
  refine (proj2 (invalid_json_is_reported float_of_decimal sample_environ not_json
                   feat1 feat2 feat3 feat4 feat5 "0.99" "0.25" "0.05" 1 "10.00"
                   (Response "<html>Bad Gateway</html>" _) _
                   _ _ _ _ _ _ _ _ _)); reflexivity.
Defined.

Lemma other_exceptions_escape_witness :
  is_RequestException type_error = false ∧
  tab1 float_of_decimal sample_environ raises_type_error true
       feat1 feat2 feat3 feat4 feat5 =
    ([st_spinner "Calling API..."; requests_post (sample_request 1)], inl type_error).
Proof.
  split; [reflexivity|].
  refine (proj2 (other_exceptions_escape float_of_decimal sample_environ raises_type_error
                   feat1 feat2 feat3 feat4 feat5 "0.99" "0.25" "0.05" 1 "10.00"
                   type_error _ _ _ _ _ _ _ _)); reflexivity.
Defined.

Lemma unrenderable_argument_sends_nothing_witness :
  int_of_num (NumFloat S754_nan) =
    inl (Exn ValueError (Msg "cannot convert float NaN to integer")) ∧
  tab1 float_of_decimal sample_environ unreachable true
       feat1 feat2 feat3 (NumFloat S754_nan) feat5 =
    ([st_spinner "Calling API..."],
     inl (Exn ValueError (Msg "cannot convert float NaN to integer"))).
Proof.
  split; [reflexivity|].
  refine (proj1 (proj2 (unrenderable_argument_sends_nothing float_of_decimal
                          sample_environ unreachable
                          feat1 feat2 feat3 (NumFloat S754_nan) feat5 _ _ _)));
    [reflexivity|].
  right. exists "0.99"%string. split; [reflexivity|].
  right. exists "0.25"%string. split; [reflexivity|].
  right. exists "0.05"%string. split; [reflexivity|].
  left. reflexivity.
Defined.

Lemma missing_value_exactly_witness :
  normalize_response float_of_decimal (PyDict {[ "result" := PyList [PyNone] ]}) =
    (missing_value, inr ()).
Proof.
  refine (proj2 (missing_value_exactly float_of_decimal {[ "result" := PyList [PyNone] ]}) _).
  right. right. left. exists []. reflexivity.
Defined.

Lemma prediction_displayed_exactly_witness :
  normalize_response float_of_decimal
    (PyDict (<["result" := PyList [PyList [PyFloat f_5_67]]]> sample_metadata)) =
    (displayed f_5_67 (PyInt 3) (PyInt 12), inr ()).
Proof.
  refine (proj2 (prediction_displayed_exactly float_of_decimal
                   (<["result" := PyList [PyList [PyFloat f_5_67]]]> sample_metadata)
                   f_5_67 (PyInt 3) (PyInt 12)) _).
  exists (PyFloat f_5_67). split; [reflexivity|]. split; [reflexivity|].
  split; [reflexivity|]. split; [|split; reflexivity].
  right. exists {[ "model_version_number" := PyInt 3 ]}. split; reflexivity.
Defined.

Lemma non_object_is_reported_witness :
  (∀ m, PyFloat f_5_67 ≠ PyDict m) ∧
  normalize_response float_of_decimal (PyFloat f_5_67) =
    (parse_failure (Exn AttributeError (Msg "'float' object has no attribute 'get'"))
       (PyFloat f_5_67), inr ()).
Proof.
  split; [discriminate|].
  refine (non_object_is_reported float_of_decimal (PyFloat f_5_67) _). discriminate.
Defined.

Lemma tab1_composes_witness :
  get_prediction sample_environ (answers "5.67" (PyFloat f_5_67))
    feat1 feat2 feat3 feat4 feat5 =
    ([requests_post (sample_request 1)], inr (PyFloat f_5_67)) ∧
  tab1 float_of_decimal sample_environ (answers "5.67" (PyFloat f_5_67)) true
       feat1 feat2 feat3 feat4 feat5 =
    ([st_spinner "Calling API...";
      requests_post (sample_request 1);
      st_error [Lit "Error parsing API response: ";
                StrExn (Exn AttributeError (Msg "'float' object has no attribute 'get'"))];
      st_expander "Debug: View Raw Response";
      st_json (PyFloat f_5_67)], inr ()).
Proof.
  split; [reflexivity|].
  refine (tab1_composes float_of_decimal sample_environ (answers "5.67" (PyFloat f_5_67))
            feat1 feat2 feat3 feat4 feat5 [requests_post (sample_request 1)]
            (PyFloat f_5_67) _).
  reflexivity.
Defined.

Lemma every_failure_is_announced_witness :
  get_prediction sample_environ unreachable feat1 feat2 feat3 feat4 feat5 =
    ([requests_post (sample_request 1);
      st_error [Lit "HTTP Request failed: "; StrExn connection_error]], inr PyNone) ∧
  get_prediction sample_environ (answers "null" PyNone) feat1 feat2 feat3 feat4 feat5 =
    ([requests_post (sample_request 1)], inr PyNone) ∧
  ∃ req resp,
    [requests_post (sample_request 1)] = [requests_post req] ∧
    answers "null" PyNone req = inr resp ∧ json resp = inr PyNone.
Proof.
  split; [reflexivity|]. split; [reflexivity|].
  refine (proj2 (every_failure_is_announced sample_environ (answers "null" PyNone)
                   feat1 feat2 feat3 feat4 feat5 [requests_post (sample_request 1)]
                   PyNone _) _ _); reflexivity.
Defined.


Lemma rename_columns_replaces_spaces_witness :
  rename_columns sample_columns =
    ["fixed_acidity"; "pH"; "free_sulfur_dioxide"; "type"] ∧
  ∀ label, label ∈ rename_columns sample_columns → " "%char ∉ list_ascii_of_string label.
Proof.
  split.
  - rewrite (proj1 (rename_columns_replaces_spaces sample_columns)). reflexivity.
  - exact (proj1 (proj2 (proj2 (rename_columns_replaces_spaces sample_columns)))).
Defined.

Lemma experiment_name_needs_all_three_witness :
  experiment_name sample_training_environ = inr "wine ann gbm"%string ∧
  ∃ e, experiment_name (delete "MLFLOW_NAME" sample_training_environ) = inl e ∧
       exn_type e = TypeError.
Proof.
  split.
  - exact (experiment_name_needs_all_three sample_training_environ).
  - exact (experiment_name_needs_all_three (delete "MLFLOW_NAME" sample_training_environ)).
Defined.
